(** * Decision core of the progressive travel planner

    A shallow embedding of the Python decision core
    ([src/core/models.py], [progressive_planner.py], [scoring_engine.py],
    [poi_quality_filter.py], [semantic_causal_flow.py],
    [explanation_layer.py], [api/routes.py]) together with the properties
    of its ranking, scoring, transport, tension and selection logic.

    Modelling conventions.
    - Python [float] values are exact rationals ([Q]); rounding is not
      modelled.  Statements about numbers use [==] ([Qeq]).
    - [dict] is [gmap], [set] is [gset], [str] is [string] (the UTF-8 bytes
      of the Python text; substring search on UTF-8 bytes agrees with
      substring search on code points).
    - Functions of the [math] module and injected collaborators that the
      core only calls are parameters. *)

From Stdlib Require Import QArith Qround Lqa Sorted Permutation.
From stdpp Require Import gmap strings list pretty.

Open Scope Q_scope.

(** ** Python numerics on rationals *)

Module Num.

Definition Qltb (x y : Q) : bool := negb (Qle_bool y x).
Definition Qleb (x y : Q) : bool := Qle_bool x y.
Definition Qeqb (x y : Q) : bool := Qeq_bool x y.

(** [max(a, b)] and [min(a, b)] of two numbers: the first argument wins
    unless the second is strictly better. *)
Definition pymax (a b : Q) : Q := if Qltb a b then b else a.
Definition pymin (a b : Q) : Q := if Qltb b a then b else a.

(** [x % m] on floats for positive [m]. *)
Definition pymod (x m : Q) : Q := x - m * inject_Z (Qfloor (x / m)).

(** [int(x)] truncates toward zero. *)
Definition pyint (x : Q) : Z :=
  if Qltb x 0 then (- Qfloor (- x))%Z else Qfloor x.

End Num.
Export Num.

(** ** Python text operations *)

Module Text.

(** [needle in hay] for two strings. *)
Fixpoint contains (needle hay : string) : bool :=
  if String.prefix needle hay then true
  else match hay with
       | EmptyString => false
       | String _ rest => contains needle rest
       end.

(** [any(k in s for k in keys)]. *)
Definition any_in (keys : list string) (s : string) : bool :=
  existsb (fun k => contains k s) keys.

(** [sum(1 for kw in keys if kw in str(words))] where [words] is a list
    of strings: Python renders the list with ASCII quotes and commas
    around the items, so a keyword without ASCII characters occurs in
    the rendering iff it occurs in one of the items. *)
Definition count_in_words (keys words : list string) : nat :=
  length (filter (fun kw => existsb (contains kw) words = true) keys).

(** [random.choice(seq)] given the index the generator draws. *)
Definition choice (draw : nat) (seq : list string) : string :=
  nth (draw mod length seq) seq EmptyString.

End Text.
Export Text.

(** ** Data model ([src/core/models.py]) *)

Inductive TransportMode := WALK | TAXI | BUS | SUBWAY | BICYCLE.

Inductive POIType :=
  | ATTRACTION | RESTAURANT | HOTEL | TRANSPORT_HUB
  | SHOPPING | ENTERTAINMENT | STATION.

#[global] Instance TransportMode_eq_dec : EqDecision TransportMode.
Proof. solve_decision. Defined.

#[global] Instance POIType_eq_dec : EqDecision POIType.
Proof. solve_decision. Defined.

(** [TransportMode.value] and [POIType.value]. *)
Definition mode_value (m : TransportMode) : string :=
  match m with
  | WALK => "walk" | TAXI => "taxi" | BUS => "bus"
  | SUBWAY => "subway" | BICYCLE => "bicycle"
  end.

Definition type_value (t : POIType) : string :=
  match t with
  | ATTRACTION => "attraction" | RESTAURANT => "restaurant"
  | HOTEL => "hotel" | TRANSPORT_HUB => "transport_hub"
  | SHOPPING => "shopping" | ENTERTAINMENT => "entertainment"
  | STATION => "station"
  end.

(** [Location]; [opening_hours], [phone], [city] and [rating] are read by
    no function embedded here. *)
Record Location := {
  id : string;
  name : string;
  lat : Q;
  lon : Q;
  type : POIType;
  address : string;
  average_visit_time : Q;
  ticket_price : Q
}.

Record Edge := {
  edge_id : string;
  from_loc : Location;
  to_loc : Location;
  mode : TransportMode;
  distance : Q;
  time : Q;
  cost : Q
}.

(** [State], the tuple (l, t, H, V, budget). *)
Record State := {
  current_location : Location;
  current_time : Q;
  visited_history : gset string;
  visit_quality : gmap string Q;
  remaining_budget : Q
}.

Record Action := {
  target_node : Location;
  transport_mode : TransportMode;
  selected_edge : option Edge;
  estimated_time : Q;
  estimated_cost : Q
}.

(** [last_update] is the reading of the clock the collector stamps on
    the record. *)
Record DataSource := {
  source_name : string;
  source_rating : Q;
  review_count : Z;
  last_update : nat
}.

Record NodeVerification := {
  data_sources : list DataSource;
  consistency_score : Q;
  weighted_rating : Q;
  valid_reviews : Z;
  fake_rate : Q;
  positive_rate : Q;
  key_positive_words : list string;
  spatial_score : Q;
  temporal_score : Q;
  predicted_crowd_level : Q
}.

(** [NodeVerification.overall_trust_score]. *)
Definition overall_trust_score (v : NodeVerification) : Q :=
  0.25 * consistency_score v + 0.25 * (1 - fake_rate v)
  + 0.25 * spatial_score v + 0.25 * temporal_score v.

Record POIQualityScore := {
  playability : Q;
  viewability : Q;
  popularity : Q;
  history : Q;
  overall : Q
}.

(** [POIQualityScore.is_qualified]. *)
Definition is_qualified (q : POIQualityScore) (min_score : Q) : bool :=
  Qleb min_score (overall q).

(** The four tensions returned by [_compute_tensions]. *)
Record Tensions := {
  novelty : Q;
  continuity : Q;
  energy : Q;
  conflict : Q
}.

(** One entry of the W-axis batch result, [{'c_causal', 'tensions'}]. *)
Record WResult := {
  w_c_causal : Q;
  w_tensions : Tensions
}.

(** [option.w_axis_details]. *)
Record WAxisDetails := {
  d_c_causal : Q;
  d_tensions : Tensions;
  d_region : string;
  d_visit_count : nat
}.

(** [CandidateOption]; of [deep_analysis] only the overall score is kept
    (in [total_score]), and [risk_details] is left out. *)
Record CandidateOption := {
  node : Location;
  edges : list Edge;
  verification : NodeVerification;
  score : Q;
  match_score : Q;
  future_preview : list Location;
  quality_score : option POIQualityScore;
  edge_score : Q;
  total_score : Q;
  risk_level : string;
  explanation : option string;
  c_causal : option Q;
  region : option string;
  visit_count : option nat;
  w_axis_details : option WAxisDetails
}.

Record UserProfile := {
  purpose : gmap string Q;
  intensity : gmap string Q;
  pace : gmap string Q;
  food_preference : gmap string Q;
  budget_level : string;
  avoid_crowd_preference : Q
}.

Record PathHistory := {
  ph_action : Action;
  previous_state : State;
  new_state : State
}.

(** [PlanningSession]; identifiers and timestamps are left out. *)
Record PlanningSession := {
  start_location : Location;
  destination_city : string;
  duration : Q;
  budget : Q;
  user_profile : UserProfile;
  current_state : State;
  path_history : list PathHistory;
  region_visit_counts : gmap string nat
}.

(** [PlanningSession.add_history]. *)
Definition add_history (s : PlanningSession) (a : Action)
    (old_state new_state' : State) : PlanningSession :=
  {| start_location := start_location s;
     destination_city := destination_city s;
     duration := duration s;
     budget := budget s;
     user_profile := user_profile s;
     current_state := current_state s;
     path_history :=
       path_history s ++
       [ {| ph_action := a; previous_state := old_state;
            new_state := new_state' |} ];
     region_visit_counts := region_visit_counts s |}.

(** [d.get(k, default)] on the dictionaries of the core. *)
Definition get_or {V} (m : gmap string V) (k : string) (d : V) : V :=
  default d (m !! k).

(** ** Transport estimator ([ProgressivePlanner._compute_*_edge]) *)

Section Transport.

(** [_haversine_distance]: great-circle distance in km.  It is computed
    with [math.sin], [math.cos], [math.asin] and [math.sqrt], which have
    no rational model, so the distance function is a parameter. *)
Variable _haversine_distance : Location -> Location -> Q.

Definition _compute_walk_edge (from_l to_l : Location) : option Edge :=
  let distance := _haversine_distance from_l to_l in
  let time := distance / 4.0 in
  Some {| edge_id := "walk_" +:+ id from_l +:+ "_" +:+ id to_l;
          from_loc := from_l; to_loc := to_l; mode := WALK;
          distance := distance; time := time; cost := 0.0 |}.

Definition _compute_taxi_edge (from_l to_l : Location) : option Edge :=
  let straight_distance := _haversine_distance from_l to_l in
  let distance := straight_distance * 1.3 in
  let time := distance / 30.0 in
  let cost := 13.0 + 2.5 * distance in
  Some {| edge_id := "taxi_" +:+ id from_l +:+ "_" +:+ id to_l;
          from_loc := from_l; to_loc := to_l; mode := TAXI;
          distance := distance; time := time; cost := cost |}.

Definition _compute_bus_edge (from_l to_l : Location) : option Edge :=
  let straight_distance := _haversine_distance from_l to_l in
  if Qltb straight_distance 1.0 || Qltb 20.0 straight_distance then None
  else
    let distance := straight_distance * 1.4 in
    let time := distance / 15.0 + 0.3 in
    let cost := 2.0 in
    Some {| edge_id := "bus_" +:+ id from_l +:+ "_" +:+ id to_l;
            from_loc := from_l; to_loc := to_l; mode := BUS;
            distance := distance; time := time; cost := cost |}.

Definition _compute_subway_edge (from_l to_l : Location) : option Edge :=
  let straight_distance := _haversine_distance from_l to_l in
  if Qltb straight_distance 3.0 || Qltb 30.0 straight_distance then None
  else
    let distance := straight_distance * 1.2 in
    let time := distance / 35.0 + 0.25 in
    let cost := pymin (2.0 + (distance / 10) * 1.0) 8.0 in
    Some {| edge_id := "subway_" +:+ id from_l +:+ "_" +:+ id to_l;
            from_loc := from_l; to_loc := to_l; mode := SUBWAY;
            distance := distance; time := time; cost := cost |}.

(** An optional edge appended when present ([if e: edges.append(e)]). *)
Definition keep (e : option Edge) : list Edge :=
  match e with Some x => [x] | None => [] end.

(** [_compute_edges]: walk (only under 2 km), taxi, bus, subway, in that
    order. *)
Definition _compute_edges (st : State) (target : Location) : list Edge :=
  let current := current_location st in
  let walk :=
    match _compute_walk_edge current target with
    | Some w => if Qltb (distance w) 2.0 then [w] else []
    | None => []
    end in
  walk
  ++ keep (_compute_taxi_edge current target)
  ++ keep (_compute_bus_edge current target)
  ++ keep (_compute_subway_edge current target).

End Transport.

(** ** Base scorer ([src/core/scoring_engine.py]) *)

(** [config['score_weights']]. *)
Record ScoreWeights := {
  w_match : Q;
  w_trust : Q;
  w_quality : Q;
  w_efficiency : Q;
  w_novelty : Q;
  w_crowd : Q
}.

(** [ScoringEngine._default_config]. *)
Definition _default_config : ScoreWeights :=
  {| w_match := 0.25; w_trust := 0.20; w_quality := 0.20;
     w_efficiency := 0.15; w_novelty := 0.10; w_crowd := 0.10 |}.

(** [min(edges, key=lambda e: e.time)]: the first edge of least time;
    [None] stands for the [ValueError] on an empty list. *)
Fixpoint min_by_time_from (best : Edge) (es : list Edge) : Edge :=
  match es with
  | [] => best
  | e :: rest =>
      min_by_time_from (if Qltb (time e) (time best) then e else best) rest
  end.

Definition min_by_time (es : list Edge) : option Edge :=
  match es with
  | [] => None
  | e :: rest => Some (min_by_time_from e rest)
  end.

(** [max(scores)] over a list of numbers, [None] when it is empty. *)
Definition max_list (l : list Q) : option Q :=
  match l with
  | [] => None
  | x :: rest => Some (fold_left pymax rest x)
  end.

(** [sum(scores)]. *)
Definition sum_list (l : list Q) : Q := fold_left Qplus l 0.

Section Scoring.

(** [math.exp]. *)
Variable exp : Q -> Q.

Definition _match_poi_type_to_purpose (n : Location)
    (purpose_pref : gmap string Q) : Q :=
  let mapped_purposes :=
    match type n with
    | ATTRACTION => ["culture"; "leisure"; "adventure"; "photography"]
    | RESTAURANT => ["leisure"; "food"]
    | HOTEL => ["rest"]
    | SHOPPING => ["shopping"; "leisure"]
    | ENTERTAINMENT => ["leisure"; "adventure"]
    | _ => ["leisure"]
    end in
  let scores := map (fun p => get_or purpose_pref p 0.0) mapped_purposes in
  default 0.5 (max_list scores).

Definition _match_intensity (n : Location)
    (intensity_pref : gmap string Q) : Q :=
  let visit_time := average_visit_time n in
  let poi_intensity :=
    if Qltb visit_time 1.0 then "very_low"
    else if Qltb visit_time 2.0 then "low"
    else if Qltb visit_time 3.0 then "medium"
    else if Qltb visit_time 4.0 then "high"
    else "very_high" in
  get_or intensity_pref poi_intensity 0.5.

Definition _match_pace (n : Location) (pace_pref : gmap string Q) : Q :=
  let poi_pace :=
    match type n with
    | ATTRACTION | RESTAURANT => "slow"
    | ENTERTAINMENT => "fast"
    | _ => "medium"
    end in
  get_or pace_pref poi_pace 0.5.

Definition _match_food (n : Location) (food_pref : gmap string Q) : Q :=
  0.7.

(** A non-empty dict is truthy. *)
Definition dict_truthy {V} (m : gmap string V) : bool :=
  negb (bool_decide (m = ∅)).

Definition compute_match_score (n : Location) (profile : UserProfile) : Q :=
  let scores :=
    [ _match_poi_type_to_purpose n (purpose profile);
      _match_intensity n (intensity profile);
      _match_pace n (pace profile) ]
    ++ (if bool_decide (type n = RESTAURANT)
           && dict_truthy (food_preference profile)
        then [_match_food n (food_preference profile)] else []) in
  sum_list scores / inject_Z (Z.of_nat (length scores)).

Definition _compute_quality_score (v : NodeVerification) : Q :=
  let rating_score := weighted_rating v / 5.0 in
  let positive_score := positive_rate v in
  0.6 * rating_score + 0.4 * positive_score.

Definition _compute_efficiency_score (es : list Edge) (st : State) : Q :=
  match min_by_time es with
  | None => 0.5
  | Some best_edge => exp (- time best_edge / 2.0)
  end.

Definition _compute_novelty_score (n : Location) (st : State) : Q :=
  if bool_decide (id n ∈ visited_history st) then 0.0 else 1.0.

(** The weighted sum before normalisation. *)
Definition weighted_sum (weights : ScoreWeights)
    (m t q e n c : Q) : Q :=
  w_match weights * m + w_trust weights * t + w_quality weights * q
  + w_efficiency weights * e + w_novelty weights * n
  + w_crowd weights * c.

Definition compute_score (weights : ScoreWeights) (n : Location)
    (es : list Edge) (v : NodeVerification) (profile : UserProfile)
    (st : State) : Q :=
  let match_score := compute_match_score n profile in
  let trust_score := overall_trust_score v in
  let quality_score := _compute_quality_score v in
  let efficiency_score := _compute_efficiency_score es st in
  let novelty_score := _compute_novelty_score n st in
  let crowd_score := 1 - predicted_crowd_level v in
  let score :=
    weighted_sum weights match_score trust_score quality_score
      efficiency_score novelty_score crowd_score in
  pymax 0.0 (pymin 1.0 score).

End Scoring.

(** ** Quality filter ([src/core/poi_quality_filter.py]) *)

Section Quality.

(** [math.log10] on a positive review count. *)
Variable log10 : Z -> Q.

Definition _evaluate_playability (poi : Location)
    (v : NodeVerification) : Q :=
  let visit_time := average_visit_time poi in
  let s1 :=
    if Qleb 3.0 visit_time then 0.5
    else if Qleb 1.5 visit_time then 0.3
    else if Qleb 0.5 visit_time then 0.15
    else 0.05 in
  let s2 :=
    match type poi with
    | ATTRACTION => 0.4 | RESTAURANT => 0.2 | HOTEL => 0.1
    | SHOPPING => 0.3 | ENTERTAINMENT => 0.35 | TRANSPORT_HUB => 0.0
    | STATION => 0.2
    end in
  let matched :=
    count_in_words ["好玩"; "有趣"; "值得"; "推荐"; "精彩"; "丰富"]
      (key_positive_words v) in
  let score :=
    0.0 + s1 + s2 + pymin (inject_Z (Z.of_nat matched) * 0.05) 0.1 in
  pymin score 1.0.

Definition _evaluate_viewability (poi : Location)
    (v : NodeVerification) : Q :=
  let s1 :=
    match type poi with
    | ATTRACTION => 0.6 | RESTAURANT => 0.3 | HOTEL => 0.2
    | SHOPPING => 0.25 | ENTERTAINMENT => 0.3 | TRANSPORT_HUB => 0.1
    | STATION => 0.2
    end in
  let matched :=
    count_in_words ["美"; "漂亮"; "风景"; "景色"; "拍照"; "打卡"; "壮观"]
      (key_positive_words v) in
  let s3 :=
    if Qleb 4.8 (weighted_rating v) then 0.2
    else if Qleb 4.5 (weighted_rating v) then 0.15
    else if Qleb 4.0 (weighted_rating v) then 0.1
    else 0 in
  let score :=
    0.0 + s1 + pymin (inject_Z (Z.of_nat matched) * 0.08) 0.2 + s3 in
  pymin score 1.0.

Definition _evaluate_popularity (poi : Location)
    (v : NodeVerification) : Q :=
  let reviews := valid_reviews v in
  let s1 :=
    if (0 <? reviews)%Z then pymin (log10 reviews / 4.0) 0.4 else 0 in
  let rating := weighted_rating v in
  let s2 :=
    if Qleb 4.8 rating then 0.3
    else if Qleb 4.5 rating then 0.25
    else if Qleb 4.0 rating then 0.15
    else 0.05 in
  let source_count := length (data_sources v) in
  let score :=
    0.0 + s1 + s2 + pymin (inject_Z (Z.of_nat source_count) * 0.1) 0.3 in
  pymin score 1.0.

(** [name.lower()] and [address.lower()] leave the keywords' matches
    unchanged (the keywords are caseless), so the texts are searched as
    they are. *)
Definition _evaluate_history (poi : Location) (v : NodeVerification) : Q :=
  let s1 :=
    if any_in ["园"; "寺"; "庙"; "塔"; "古"; "故居"; "博物馆"; "纪念馆";
               "遗址"; "文化"; "历史"; "传统"; "老街"; "古镇"] (name poi)
    then 0.4 else 0 in
  let s2 :=
    if any_in ["老城"; "古城"; "历史街区"] (address poi)
    then 0.2 else 0 in
  let matched :=
    count_in_words ["历史"; "文化"; "古老"; "传统"; "底蕴"]
      (key_positive_words v) in
  let s4 := if Qltb 0 (ticket_price poi) then 0.2 else 0 in
  let score :=
    0.0 + s1 + s2 + pymin (inject_Z (Z.of_nat matched) * 0.1) 0.2 + s4 in
  pymin score 1.0.

Definition evaluate_quality (poi : Location)
    (v : NodeVerification) : POIQualityScore :=
  let p := _evaluate_playability poi v in
  let w := _evaluate_viewability poi v in
  let h := _evaluate_popularity poi v in
  let y := _evaluate_history poi v in
  {| playability := p; viewability := w; popularity := h; history := y;
     overall := 0.30 * p + 0.25 * w + 0.25 * h + 0.20 * y |}.

Definition is_worth_recommending (poi : Location)
    (v : NodeVerification) : bool :=
  if (valid_reviews v <? 50)%Z then false
  else if Qltb (weighted_rating v) 4.0 then false
  else
    let quality := evaluate_quality poi v in
    if Qltb (playability quality) 0.3 then false
    else if negb (is_qualified quality 0.5) then false
    else true.

End Quality.

(** ** W-axis: tensions and causal score ([src/core/semantic_causal_flow.py]) *)

(** The [context] dictionary of a batch task. *)
Record TaskContext := {
  weather : string;
  time_of_day : Z;
  visited_regions : gmap string nat
}.

(** One batch task, [{'current', 'next', 'context'}]. *)
Record Task := {
  task_current : Location;
  task_next : Location;
  task_context : TaskContext
}.

(** First keyword of [keys] found in the name or the address, else the
    catch-all label: the shape shared by the three [_get_region]s. *)
Fixpoint first_region (keys : list string) (poi : Location) : string :=
  match keys with
  | [] => "其他"
  | k :: rest =>
      if contains k (name poi) || contains k (address poi) then k
      else first_region rest poi
  end.

Module CausalFlowAnalyzer.

(** [CausalFlowAnalyzer._get_region]. *)
Definition _get_region (poi : Location) : string :=
  first_region ["鼓浪屿"; "厦大"; "曾厝垵"; "中山路"; "环岛路"] poi.

(** Number of strictly positive, resp. strictly negative, values. *)
Definition positive_count (l : list Q) : nat :=
  length (filter (fun t => Qltb 0 t = true) l).
Definition negative_count (l : list Q) : nat :=
  length (filter (fun t => Qltb t 0 = true) l).

Definition novelty_of (count : nat) : Q :=
  match count with
  | O => 0.8
  | S O => -0.3
  | _ => -0.6
  end.

Definition continuity_of (current next_poi : Location) : Q :=
  let base := if bool_decide (type current = type next_poi)
              then -0.4 else 0.3 in
  let famous := ["厦大"; "鼓浪屿"; "环岛路"; "曾厝垵"; "中山路";
                 "拙政园"; "虎丘"; "平江路"; "姑苏"] in
  if any_in famous (name next_poi) then base + 0.2 else base.

Definition energy_of (next_poi : Location) (time_hour : Z) : Q :=
  let base :=
    if (time_hour <? 12)%Z then 0.6
    else if (time_hour <? 16)%Z then 0.2
    else if (time_hour <? 18)%Z then -0.2
    else -0.5 in
  if bool_decide (type_value (type next_poi) = "restaurant")
  then
    if ((11 <=? time_hour) && (time_hour <=? 13)
        || (17 <=? time_hour) && (time_hour <=? 19))%Z
    then base + 0.4 else base
  else base.

Definition conflict_of (tension_values : list Q) : Q :=
  let positive := positive_count tension_values in
  let negative := negative_count tension_values in
  if (0 <? positive)%nat && (0 <? negative)%nat
  then inject_Z (Z.of_nat (Nat.min positive negative))
       / inject_Z (Z.of_nat (length tension_values))
  else 0.0.

Definition _compute_tensions (task : Task) : Tensions :=
  let current := task_current task in
  let next_poi := task_next task in
  let context := task_context task in
  let region := _get_region next_poi in
  let count := get_or (visited_regions context) region 0%nat in
  let novelty := novelty_of count in
  let continuity := continuity_of current next_poi in
  let energy := energy_of next_poi (time_of_day context) in
  {| novelty := novelty; continuity := continuity; energy := energy;
     conflict := conflict_of [novelty; continuity; energy] |}.

Definition _rule_causal_score_simple (task : Task) : Q :=
  let tensions := _compute_tensions task in
  let score := 0.5 + novelty tensions * 0.3 + continuity tensions * 0.2
               + energy tensions * 0.1 in
  pymax 0.1 (pymin 0.95 score).

(** The analyzer's collaborators.  [llm_client.batch_reason] answers
    one optional number per prompt, in prompt order; the prompt is
    built from the task, so the client is a function of the position
    and the task.  [spatial_intelligence.reason_causality] is [None]
    when the call raises or the method is missing. *)
Record t := {
  llm_client : option (nat -> Task -> option Q);
  spatial_intelligence : option (Task -> option Q)
}.

Definition _batch_llm_reason (reason : nat -> Task -> option Q)
    (tasks : list Task) : list Q :=
  imap (fun i task =>
          match reason i task with
          | Some s => s
          | None => _rule_causal_score_simple task
          end) tasks.

Definition _batch_rule_reason_with_tensions (tasks : list Task)
    : list WResult :=
  map (fun task =>
         {| w_c_causal := _rule_causal_score_simple task;
            w_tensions := _compute_tensions task |}) tasks.

Definition _batch_llm_reason_with_tensions
    (reason : nat -> Task -> option Q) (tasks : list Task)
    : list WResult :=
  zip_with (fun task c =>
              {| w_c_causal := c; w_tensions := _compute_tensions task |})
    tasks (_batch_llm_reason reason tasks).

Definition _batch_spatial_reason_with_tensions
    (reason : Task -> option Q) (tasks : list Task) : list WResult :=
  map (fun task =>
         {| w_c_causal := default 0.6 (reason task);
            w_tensions := _compute_tensions task |}) tasks.

Definition batch_compute_causal_flow (a : t) (tasks : list Task)
    : list WResult :=
  match tasks with
  | [] => []
  | _ =>
      match llm_client a, spatial_intelligence a with
      | Some reason, _ => _batch_llm_reason_with_tensions reason tasks
      | None, Some reason =>
          _batch_spatial_reason_with_tensions reason tasks
      | None, None => _batch_rule_reason_with_tensions tasks
      end
  end.

End CausalFlowAnalyzer.

(** [SemanticCausalFlow]: the field weights and the analyzer. *)
Module SemanticCausalFlow.

Record t := {
  delta : Q;
  epsilon : Q;
  causal_analyzer : CausalFlowAnalyzer.t
}.

Definition upgrade_to_4d_potential (phi_3d f_wc : Q) : Q := phi_3d + f_wc.

Definition batch_compute_causal_flow (w : t) (tasks : list Task)
    : list WResult :=
  CausalFlowAnalyzer.batch_compute_causal_flow (causal_analyzer w) tasks.

End SemanticCausalFlow.

(** ** Explanation layer ([src/core/explanation_layer.py]) *)

(** The [context] dictionary handed to [explain_choice].  The text
    [ctx_time] is rendered by [_format_time] as "HH:MM"; it is kept as the
    pair (h, m) it is rendered from, and [int(time.split(':')[0])] reads
    [h] back. *)
Record ExplainContext := {
  ctx_time : Z * Z;
  ctx_weather : string;
  ctx_visited_regions : gmap string nat;
  ctx_c_causal : Q;
  ctx_tensions : option Tensions
}.

(** What a run takes from outside, in the order it asks for it: the
    draws of the shared [random] generator and the readings of the
    clock.  [random.choice] takes one draw as an index; the verification
    engine, whose collector draws ratings and reviews and stamps the
    time, takes what it needs and leaves the rest. *)
Definition Tape := list nat.

(** One [random.choice(templates)]. *)
Definition draw_choice (templates : list string) (tape : Tape)
    : string * Tape :=
  match tape with
  | d :: rest => (choice d templates, rest)
  | [] => (choice 0 templates, [])
  end.

(** [str.lower] restricted to ASCII letters (enough for the test
    ['rain' in weather.lower()]). *)
Definition ascii_lower (c : Ascii.ascii) : Ascii.ascii :=
  let n := Ascii.nat_of_ascii c in
  if ((65 <=? n) && (n <=? 90))%nat then Ascii.ascii_of_nat (n + 32) else c.

Fixpoint lower (s : string) : string :=
  match s with
  | EmptyString => EmptyString
  | String c rest => String (ascii_lower c) (lower rest)
  end.

Module ExplanationLayer.

(** [llm_client.generate] as the layer uses it: the stripped answer to
    the prompt built from (option, context, rank), [None] when the call
    raises. *)
Record t := {
  llm_client : option (CandidateOption -> ExplainContext -> nat
                       -> option string)
}.

(** [ExplanationLayer._get_region]. *)
Definition _get_region (poi : Location) : string :=
  first_region ["鼓浪屿"; "厦大"; "曾厝垵"; "中山路"; "环岛路";
                "姑苏"; "虎丘"; "金鸡湖"; "平江路"; "山塘街"] poi.

Definition region_count (context : ExplainContext) (region : string)
    : nat :=
  get_or (ctx_visited_regions context) region 0%nat.

Definition _rule_explain (option : CandidateOption)
    (context : ExplainContext) : string :=
  let poi := node option in
  let region := _get_region poi in
  let visit_count := region_count context region in
  let hour := fst (ctx_time context) in
  let '(transport_mode, transport_time) :=
    match edges option with
    | edge :: _ =>
        (mode_value (mode edge),
         if Qeqb (time edge) 0 then 10%Z else pyint (time edge * 60))
    | [] => ("步行", 10%Z)
    end in
  if (0 <? visit_count)%nat then
    let templates :=
      ["这会儿有点累了，回熟悉的地方随便走走反而更放松";
       "时间还早，再逛逛这边也不错，不用赶路";
       "上次没逛够吧？正好再来补上"] in
    nth (Nat.min (visit_count - 1) (length templates - 1)) templates ""
  else if bool_decide (type poi = RESTAURANT) then
    if ((11 <=? hour) && (hour <=? 13))%Z
    then "正好到饭点儿了，这家看着不错，试试"
    else "提前找个地方吃点东西，免得一会儿饿"
  else if any_in ["厦大"; "鼓浪屿"; "环岛路"; "曾厝垵"; "中山路";
                  "苏州博物馆"; "拙政园"; "虎丘"; "平江路"] (name poi)
  then "走，去" +:+ region +:+ "看看，这是必打卡的地方"
  else if bool_decide (transport_mode = "步行")
  then "就在附近，走过去就行，顺便消消食"
  else if (transport_time <? 15)%Z
  then "离得很近，过去看看正好"
  else if (contains "雨" (ctx_weather context)
           || contains "rain" (lower (ctx_weather context)))
          && (bool_decide (type poi = SHOPPING)
              || bool_decide (type poi = RESTAURANT)
              || bool_decide (type poi = ENTERTAINMENT))
  then "下雨天，去室内逛逛最舒服"
  else "换个地方透透气，去" +:+ region +:+ "逛逛".

(** The four templates of [_generate_counter_suggestion]. *)
Definition counter_templates (option : CandidateOption)
    (context : ExplainContext)
    (alternatives : Datatypes.option (list CandidateOption))
    : list string :=
  let region := _get_region (node option) in
  let visit_count := region_count context region in
  let alternative_text :=
    match alternatives with
    | Some (alt_option :: _) =>
        let alt_region := _get_region (node alt_option) in
        let alt_visit := region_count context alt_region in
        if (alt_visit <? visit_count)%nat
        then "或者" +:+ alt_region +:+ "那边还没怎么去过，"
        else ""
    | _ => ""
    end in
  [ region +:+ "又去？" +:+ alternative_text +:+ "要不换个地方透透气？";
    "虽然" +:+ region +:+ "还不错，但去了" +:+ pretty visit_count
      +:+ "次了，" +:+ alternative_text +:+ "换个区域会不会更新鲜？";
    "我感觉" +:+ region +:+ "有点去腻了..." +:+ alternative_text
      +:+ "要不要考虑别的地方？";
    region +:+ "确实挺好，可是去太多次会不会单调？" +:+ alternative_text
      +:+ "换个方向走走？" ].

Definition _generate_counter_suggestion (option : CandidateOption)
    (context : ExplainContext)
    (alternatives : Datatypes.option (list CandidateOption))
    (tape : Tape) : string * Tape :=
  draw_choice (counter_templates option context alternatives) tape.

(** The three templates of the generic branch of
    [_generate_second_choice_appeal]. *)
Definition appeal_templates (option : CandidateOption) : list string :=
  let region := _get_region (node option) in
  [ "其实" +:+ region +:+ "也挺值得去的，不一定非要选第一";
    "第二名也有它的道理，" +:+ region +:+ "可能更适合你";
    "要不考虑一下这个？" +:+ region +:+ "也许是个惊喜" ].

Definition _generate_second_choice_appeal (option : CandidateOption)
    (context : ExplainContext) (tape : Tape) : string * Tape :=
  let region := _get_region (node option) in
  let visit_count := region_count context region in
  let novelty := from_option novelty 0 (ctx_tensions context) in
  let energy := from_option energy 0 (ctx_tensions context) in
  if (visit_count =? 0)%nat && Qltb 0.5 novelty
  then ("虽然排第二，但" +:+ region +:+ "是新地方，说不定更有惊喜", tape)
  else if Qltb energy 0
  then ("第二选择也不错，而且更近，省点力气", tape)
  else draw_choice (appeal_templates option) tape.

Definition explain_choice (layer : t) (option : CandidateOption)
    (context : ExplainContext) (rank : nat)
    (alternatives : Datatypes.option (list CandidateOption))
    (tape : Tape) : string * Tape :=
  let region := _get_region (node option) in
  let visit_count := region_count context region in
  if (2 <=? visit_count)%nat && (rank =? 1)%nat
  then _generate_counter_suggestion option context alternatives tape
  else if (rank =? 2)%nat
  then _generate_second_choice_appeal option context tape
  else
    match llm_client layer with
    | Some generate =>
        match generate option context rank with
        | Some text => (text, tape)
        | None => (_rule_explain option context, tape)
        end
    | None => (_rule_explain option context, tape)
    end.

End ExplanationLayer.

(** ** Session coordinator ([src/core/progressive_planner.py]) *)

(** [list.sort(key=lambda x: x.score, reverse=True)]: a stable sort by
    descending score; options of equal score keep their relative order.
    [insert_desc x l] puts [x], which preceded all of [l], in front of the
    first option whose score is not strictly greater. *)
Fixpoint insert_desc (x : CandidateOption) (l : list CandidateOption)
    : list CandidateOption :=
  match l with
  | [] => [x]
  | y :: rest =>
      if Qltb (score x) (score y) then y :: insert_desc x rest
      else x :: y :: rest
  end.

Fixpoint sort_by_score (l : list CandidateOption) : list CandidateOption :=
  match l with
  | [] => []
  | x :: rest => insert_desc x (sort_by_score rest)
  end.

(** [min(values)] over a non-empty list of numbers. *)
Definition min_list (l : list Q) : option Q :=
  match l with
  | [] => None
  | x :: rest => Some (fold_left pymin rest x)
  end.

(** The [context] dictionary handed to the deep analyzer. *)
Record DeepContext := {
  distance_km : Q;
  travel_time : Q;
  deep_current_time : Q
}.

(** [ProgressivePlanner.config]. *)
Record PlannerConfig := {
  max_candidates : nat;
  max_distance_km : Q;
  enable_quality_filter : bool;
  enable_temporal_filter : bool
}.

Definition default_planner_config : PlannerConfig :=
  {| max_candidates := 10; max_distance_km := 50;
     enable_quality_filter := true; enable_temporal_filter := true |}.

Module ProgressivePlanner.

(** The collaborators injected into the planner.  The verification
    engine and the deep analyzer answer [None] when they return [None]
    or raise (the candidate is skipped either way).  The verification
    engine is not a function of its arguments: the repository's engine
    asks a collector that draws ratings and reviews from [random] and
    stamps [datetime.now()] on every call, so each call reads the tape
    and hands back what it leaves, and two calls with the same
    arguments may answer differently.  The deep analyzer's answer is
    its [overall_score]; the spatial core's answer is the [risk_level],
    [None] when the analysis raises. *)
Record t := {
  poi_db : string -> list Location;
  verification_engine :
    Location -> State -> PlanningSession -> Tape ->
    option NodeVerification * Tape;
  score_weights : ScoreWeights;
  deep_analyzer :
    Location -> NodeVerification -> option POIQualityScore ->
    UserProfile -> DeepContext -> option Q;
  spatial_core :
    option (Location -> State -> PlanningSession -> option string);
  w_axis : option SemanticCausalFlow.t;
  explainer : option ExplanationLayer.t;
  config : PlannerConfig
}.

(** [ProgressivePlanner._get_region]. *)
Definition _get_region (poi : Location) : string :=
  first_region
    ["鼓浪屿"; "厦大"; "曾厝垵"; "中山路"; "环岛路";
     "姑苏"; "虎丘"; "金鸡湖"; "平江路"; "山塘街";
     "西湖"; "灵隐"; "河坊街"; "钱塘江";
     "外滩"; "陆家嘴"; "南京路"; "豫园"] poi.

(** [_format_time], as the pair (h, m). *)
Definition _format_time (hour : Q) : Z * Z :=
  let h := pyint hour in
  let m := pyint ((hour - inject_Z h) * 60) in
  (h, m).

(** *** State transition and selection *)

Definition _state_transition (st : State) (a : Action) (e : Edge)
    : State :=
  let n := target_node a in
  let new_time := current_time st + time e + average_visit_time n in
  let new_history := visited_history st ∪ {[ id n ]} in
  let new_quality := <[ id n := 0.8 ]> (visit_quality st) in
  let new_budget := remaining_budget st - cost e - ticket_price n in
  {| current_location := n;
     current_time := new_time;
     visited_history := new_history;
     visit_quality := new_quality;
     remaining_budget := new_budget |}.

(** [session.current_state = new_state]. *)
Definition set_current_state (s : PlanningSession) (st : State)
    : PlanningSession :=
  {| start_location := start_location s;
     destination_city := destination_city s;
     duration := duration s;
     budget := budget s;
     user_profile := user_profile s;
     current_state := st;
     path_history := path_history s;
     region_visit_counts := region_visit_counts s |}.

(** [session.region_visit_counts[region] = ...get(region, 0) + 1]. *)
Definition bump_region (s : PlanningSession) (region : string)
    : PlanningSession :=
  {| start_location := start_location s;
     destination_city := destination_city s;
     duration := duration s;
     budget := budget s;
     user_profile := user_profile s;
     current_state := current_state s;
     path_history := path_history s;
     region_visit_counts :=
       <[ region := (get_or (region_visit_counts s) region 0 + 1)%nat ]>
         (region_visit_counts s) |}.

(** [user_select]: returns the session after the call and the new
    state.  The function has no failing path. *)
Definition user_select (s : PlanningSession)
    (selected_option : CandidateOption) (selected : Edge)
    : PlanningSession * State :=
  let old_state := current_state s in
  let n := node selected_option in
  let a := {| target_node := n;
              transport_mode := mode selected;
              selected_edge := Some selected;
              estimated_time := time selected + average_visit_time n;
              estimated_cost := cost selected + ticket_price n |} in
  let new_state := _state_transition old_state a selected in
  let region := _get_region n in
  let s1 := bump_region s region in
  let s2 := set_current_state s1 new_state in
  let s3 := add_history s2 a old_state new_state in
  (s3, new_state).

(** [select_option]: the edge of least time, then [user_select];
    [None] stands for the [ValueError] of [min] on an empty list. *)
Definition select_option (s : PlanningSession) (o : CandidateOption)
    : option (PlanningSession * State) :=
  match min_by_time (edges o) with
  | None => None
  | Some best_edge => Some (user_select s o best_edge)
  end.

(** *** The get-next-options pipeline *)

Section Pipeline.

Variable _haversine_distance : Location -> Location -> Q.
Variable exp : Q -> Q.
Variable log10 : Z -> Q.

(** [Location.is_open]: reads the weekday of a local timestamp, so it
    is a parameter. *)
Variable is_open : Location -> Q -> bool.

Variable planner : t.

Definition _spatial_filter (current target : Location) (st : State)
    : bool :=
  let distance := _haversine_distance current target in
  if Qltb (max_distance_km (config planner)) distance then false
  else true.

Definition _temporal_filter (poi : Location) (st : State)
    (total_duration : Q) : bool :=
  if negb (enable_temporal_filter (config planner)) then true
  else if negb (is_open poi (current_time st)) then false
  else
    let remaining := total_duration - current_time st in
    let required := average_visit_time poi + 1.0 in
    if Qltb remaining required then false else true.

Definition type_in (ty : POIType) (l : list POIType) : bool :=
  bool_decide (ty ∈ l).

Definition _contextual_filter (poi : Location) (st : State)
    (session : PlanningSession) : bool :=
  let start_hour := 9 in
  let elapsed_hours := current_time st in
  let hour := pymod (start_hour + elapsed_hours) 24 in
  if Qleb 0 hour && Qltb hour 6 && negb (type_in (type poi) [HOTEL])
  then false
  else if Qleb 6 hour && Qltb hour 9
          && negb (type_in (type poi) [RESTAURANT; ATTRACTION; HOTEL])
  then false
  else if Qleb 21 hour && Qltb hour 24
          && negb (type_in (type poi)
                     [RESTAURANT; HOTEL; ENTERTAINMENT])
  then false
  else true.

Definition is_candidate (session : PlanningSession) (poi : Location)
    : bool :=
  let st := current_state session in
  _spatial_filter (current_location st) poi st
  && _temporal_filter poi st (duration session)
  && _contextual_filter poi st session
  && negb (bool_decide (id poi ∈ visited_history st)).

Definition _compute_candidates (session : PlanningSession)
    : list Location :=
  List.filter (is_candidate session)
    (poi_db planner (destination_city session)).

Definition _preview_future (n : Location) (st : State)
    (session : PlanningSession) : list Location :=
  let hypothetical_state :=
    {| current_location := n;
       current_time := current_time st + 2.0;
       visited_history := visited_history st ∪ {[ id n ]};
       visit_quality := visit_quality st;
       remaining_budget := remaining_budget st |} in
  let temp_session :=
    {| start_location := start_location session;
       destination_city := destination_city session;
       duration := duration session;
       budget := budget session;
       user_profile := user_profile session;
       current_state := hypothetical_state;
       path_history := [];
       region_visit_counts := ∅ |} in
  take 3 (_compute_candidates temp_session).

(** The body of the per-candidate loop: [None] when the candidate is
    skipped, and the tape the iteration leaves.  A candidate without
    edges is skipped before the engine is asked. *)
Definition build_option (session : PlanningSession) (n : Location)
    (tape : Tape) : option CandidateOption * Tape :=
  let st := current_state session in
  let profile := user_profile session in
  let es := _compute_edges _haversine_distance st n in
  match min_list (map distance es), min_list (map time es) with
  | Some dmin, Some tmin =>
      let '(answer, tape1) :=
        verification_engine planner n st session tape in
      (match answer with
       | None => None
       | Some v =>
           let sc := compute_score exp (score_weights planner)
                       n es v profile st in
           let ms := compute_match_score n profile in
           let preview := _preview_future n st session in
           let quality :=
             if enable_quality_filter (config planner)
             then Some (evaluate_quality log10 n v) else None in
           if enable_quality_filter (config planner)
              && negb (is_worth_recommending log10 n v)
           then None
           else
             let context :=
               {| distance_km := dmin; travel_time := tmin;
                  deep_current_time := current_time st |} in
             match deep_analyzer planner n v quality profile context with
             | None => None
             | Some overall_score =>
                 Some {| node := n; edges := es; verification := v;
                         score := sc; match_score := ms;
                         future_preview := preview;
                         quality_score := quality;
                         edge_score := dmin;
                         total_score := overall_score;
                         risk_level := "info";
                         explanation := None; c_causal := None;
                         region := None; visit_count := None;
                         w_axis_details := None |}
             end
       end, tape1)
  | _, _ => (None, tape)   (* [if not edges: continue] *)
  end.

(** [for idx, node in enumerate(candidates)]: the kept options in
    candidate order, the tape threaded through the iterations. *)
Fixpoint build_loop (session : PlanningSession)
    (candidates : list Location) (tape : Tape)
    : list CandidateOption * Tape :=
  match candidates with
  | [] => ([], tape)
  | n :: rest =>
      let '(built, tape1) := build_option session n tape in
      let '(options, tape2) := build_loop session rest tape1 in
      (match built with
       | Some o => o :: options
       | None => options
       end, tape2)
  end.

Definition build_options (session : PlanningSession) (tape : Tape)
    : list CandidateOption * Tape :=
  build_loop session (_compute_candidates session) tape.

(** What the verification engine answers in the course of the loop: one
    answer for every candidate it is asked about, in candidate order. *)
Fixpoint engine_answers (session : PlanningSession)
    (candidates : list Location) (tape : Tape)
    : list (option NodeVerification) :=
  match candidates with
  | [] => []
  | n :: rest =>
      let st := current_state session in
      let es := _compute_edges _haversine_distance st n in
      match min_list (map distance es), min_list (map time es) with
      | Some _, Some _ =>
          let '(answer, tape1) :=
            verification_engine planner n st session tape in
          answer :: engine_answers session rest tape1
      | _, _ => engine_answers session rest tape
      end
  end.

End Pipeline.

(** *** Annotation, ranking and explanation stages *)

(** Assignments to the W-axis fields of an option. *)
Definition set_w_fields (o : CandidateOption) (c : option Q)
    (r : string) (n : nat) (details : option WAxisDetails)
    : CandidateOption :=
  {| node := node o; edges := edges o; verification := verification o;
     score := score o; match_score := match_score o;
     future_preview := future_preview o;
     quality_score := quality_score o; edge_score := edge_score o;
     total_score := total_score o; risk_level := risk_level o;
     explanation := explanation o;
     c_causal := c; region := Some r; visit_count := Some n;
     w_axis_details := details |}.

(** [option.risk_level = ...]. *)
Definition set_risk_level (o : CandidateOption) (level : string)
    : CandidateOption :=
  {| node := node o; edges := edges o; verification := verification o;
     score := score o; match_score := match_score o;
     future_preview := future_preview o;
     quality_score := quality_score o; edge_score := edge_score o;
     total_score := total_score o; risk_level := level;
     explanation := explanation o;
     c_causal := c_causal o; region := region o;
     visit_count := visit_count o;
     w_axis_details := w_axis_details o |}.

(** [option.explanation = ...]. *)
Definition set_explanation (o : CandidateOption) (text : option string)
    : CandidateOption :=
  {| node := node o; edges := edges o; verification := verification o;
     score := score o; match_score := match_score o;
     future_preview := future_preview o;
     quality_score := quality_score o; edge_score := edge_score o;
     total_score := total_score o; risk_level := risk_level o;
     explanation := text;
     c_causal := c_causal o; region := region o;
     visit_count := visit_count o;
     w_axis_details := w_axis_details o |}.

Definition w_task (session : PlanningSession) (o : CandidateOption)
    : Task :=
  let st := current_state session in
  {| task_current := current_location st;
     task_next := node o;
     task_context :=
       {| weather := "sunny";
          time_of_day := pyint (current_time st);
          visited_regions := region_visit_counts session |} |}.

Definition apply_w_result (session : PlanningSession)
    (o : CandidateOption) (r : WResult) : CandidateOption :=
  let rg := _get_region (node o) in
  let count := get_or (region_visit_counts session) rg 0%nat in
  set_w_fields o (Some (w_c_causal r)) rg count
    (Some {| d_c_causal := w_c_causal r; d_tensions := w_tensions r;
             d_region := rg; d_visit_count := count |}).

(** [for option, w_result in zip(options, w_results)]: options beyond
    the results stay as they are. *)
Fixpoint annotate (session : PlanningSession)
    (options : list CandidateOption) (results : list WResult)
    : list CandidateOption :=
  match options, results with
  | o :: os, r :: rs => apply_w_result session o r :: annotate session os rs
  | _, _ => options
  end.

Definition no_w_axis (session : PlanningSession) (o : CandidateOption)
    : CandidateOption :=
  let rg := _get_region (node o) in
  set_w_fields o None rg (get_or (region_visit_counts session) rg 0%nat)
    (w_axis_details o).

(** Step 3 of [get_next_options].  The batch call, [min], [max] and the
    mean over the non-empty result list do not raise, so the [except]
    branch is not taken. *)
Definition w_axis_stage (planner : t) (session : PlanningSession)
    (options : list CandidateOption) : list CandidateOption :=
  match options, w_axis planner with
  | [], _ => options
  | _, Some w =>
      annotate session options
        (SemanticCausalFlow.batch_compute_causal_flow w
           (map (w_task session) options))
  | _, None => map (no_w_axis session) options
  end.

Definition risk_stage (planner : t) (session : PlanningSession)
    (options : list CandidateOption) : list CandidateOption :=
  match spatial_core planner with
  | Some analyze =>
      map (fun o =>
             set_risk_level o
               (default "info"
                  (analyze (node o) (current_state session) session)))
        options
  | None => options
  end.

Definition explain_context (session : PlanningSession)
    (o : CandidateOption) : ExplainContext :=
  {| ctx_time := _format_time (current_time (current_state session));
     ctx_weather := "sunny";
     ctx_visited_regions := region_visit_counts session;
     ctx_c_causal :=
       match c_causal o with
       | Some c => if Qeqb c 0 then 0.5 else c
       | None => 0.5
       end;
     ctx_tensions := d_tensions <$> w_axis_details o |}.

(** [top_options[1:3] if rank == 1 and len(top_options) > 1 else None]. *)
Definition alternatives_for (top_options : list CandidateOption)
    (rank : nat) : option (list CandidateOption) :=
  if (rank =? 1)%nat && (1 <? length top_options)%nat
  then Some (take 2 (drop 1 top_options)) else None.

(** [for rank, option in enumerate(top_options, 1)], the random
    generator threaded through the iterations. *)
Fixpoint explain_loop (layer : ExplanationLayer.t)
    (session : PlanningSession) (top_options : list CandidateOption)
    (rank : nat) (todo : list CandidateOption) (tape : Tape)
    : list CandidateOption * Tape :=
  match todo with
  | [] => ([], tape)
  | o :: rest =>
      let '(text, tape1) :=
        ExplanationLayer.explain_choice layer o
          (explain_context session o) rank
          (alternatives_for top_options rank) tape in
      let '(rest', tape2) :=
        explain_loop layer session top_options (S rank) rest tape1 in
      (set_explanation o (Some text) :: rest', tape2)
  end.

Definition explain_stage (planner : t) (session : PlanningSession)
    (top_options : list CandidateOption) (tape : Tape)
    : list CandidateOption * Tape :=
  match explainer planner with
  | Some layer => explain_loop layer session top_options 1 top_options tape
  | None => (top_options, tape)
  end.

(** Steps 3 to 5 of [get_next_options], from the options built by the
    per-candidate loop. *)
Definition rank_options (planner : t) (session : PlanningSession)
    (k : option nat) (options : list CandidateOption) (tape : Tape)
    : list CandidateOption * Tape :=
  let k := default (max_candidates (config planner)) k in
  let annotated := w_axis_stage planner session options in
  let sorted := sort_by_score annotated in
  let assessed := risk_stage planner session sorted in
  let top_options := take k assessed in
  explain_stage planner session top_options tape.

Section NextOptions.

Variable _haversine_distance : Location -> Location -> Q.
Variable exp : Q -> Q.
Variable log10 : Z -> Q.
Variable is_open : Location -> Q -> bool.
Variable planner : t.

Definition get_next_options (session : PlanningSession)
    (k : option nat) (tape : Tape) : list CandidateOption * Tape :=
  let '(options, tape1) :=
    build_options _haversine_distance exp log10 is_open planner
      session tape in
  rank_options planner session k options tape1.

End NextOptions.

End ProgressivePlanner.

(** ** Selection route ([src/api/routes.py], [session_manager.py]) *)

Module Routes.

(** The outcome of [POST /session/{id}/select]: the response body, given
    by the selected option and the new state it is built from, or the
    raised [HTTPException]. *)
Inductive Response :=
  | Selected (selected_option : CandidateOption) (new_state : State)
  | HTTPException (status_code : nat).

(** [QualityScoreResponse]. *)
Record QualityScoreResponse := {
  r_playability : Q;
  r_viewability : Q;
  r_popularity : Q;
  r_history : Q;
  r_overall : Q
}.

(** [convert_to_quality_score_response]: reading an attribute of
    [None] raises, which is [None] here. *)
Definition convert_to_quality_score_response
    (quality : option POIQualityScore) : option QualityScoreResponse :=
  match quality with
  | Some q =>
      Some {| r_playability := playability q;
              r_viewability := viewability q;
              r_popularity := popularity q;
              r_history := history q;
              r_overall := overall q |}
  | None => None
  end.

Section Select.

Variable _haversine_distance : Location -> Location -> Q.
Variable exp : Q -> Q.
Variable log10 : Z -> Q.
Variable is_open : Location -> Q -> bool.
Variable planner : ProgressivePlanner.t.

(** [convert_to_deep_analysis_response] on the deep analysis attached
    to the option: whether it returns.  The option of the embedding
    keeps only the overall score of that object, so whether the object
    carries every attribute the response reads is a parameter. *)
Variable deep_analysis_converts : PlanningSession -> CandidateOption -> bool.

(** [SessionManager.get_session]; [expired] is the outcome of the clock
    test [now - last_active > session_timeout]. *)
Definition get_session (sessions : gmap string PlanningSession)
    (expired : bool) (session_id : string)
    : option PlanningSession * gmap string PlanningSession :=
  match sessions !! session_id with
  | None => (None, sessions)
  | Some session =>
      if expired then (None, delete session_id sessions)
      else (Some session, sessions)
  end.

(** Building [SelectOptionResponse]: the conversions of the location,
    the verification record and the state read attributes that the
    dataclasses always carry; the conversion of the quality score and
    of the deep analysis can raise.  [true] when the response is
    built. *)
Definition response_built (session : PlanningSession)
    (selected_option : CandidateOption) : bool :=
  match convert_to_quality_score_response
          (quality_score selected_option) with
  | Some _ => deep_analysis_converts session selected_option
  | None => false
  end.

(** [select_option(session_id, request)]: the response, the session map
    and the tape after the request.  [planner.select_option] updates the
    stored session object in place, so the map holds the advanced
    session from that call on; an exception raised later, while the
    response is built, is turned into status 500 by the route's
    [except Exception] and leaves the advanced session in the map. *)
Definition select_option (sessions : gmap string PlanningSession)
    (expired : bool) (session_id : string) (option_index : Z) (tape : Tape)
    : Response * gmap string PlanningSession * Tape :=
  match get_session sessions expired session_id with
  | (None, sessions1) => (HTTPException 404, sessions1, tape)
  | (Some session, sessions1) =>
      let '(options, tape1) :=
        ProgressivePlanner.get_next_options _haversine_distance exp log10
          is_open planner session None tape in
      if (option_index <? 0)%Z
         || (Z.of_nat (length options) <=? option_index)%Z
      then (HTTPException 400, sessions1, tape1)
      else
        match options !! Z.to_nat option_index with
        | None => (HTTPException 500, sessions1, tape1)
        | Some selected_option =>
            match ProgressivePlanner.select_option session
                    selected_option with
            | None => (HTTPException 500, sessions1, tape1)
            | Some (session', new_state) =>
                let sessions2 := <[ session_id := session' ]> sessions1 in
                if response_built session selected_option
                then (Selected selected_option new_state, sessions2, tape1)
                else (HTTPException 500, sessions2, tape1)
            end
        end
  end.

End Select.

End Routes.

(** ** A concrete run: four sights in Xiamen

    The collaborators are fixed to simple tables so that the pipeline can
    be evaluated.  Every sight is 1.5 km from every other place, so all
    candidates get the same edges and the same efficiency term. *)

Module Scenario.
Import ProgressivePlanner.

(** Stand-in for [math.exp]: the Taylor polynomial of degree 6. *)
Definition exp_taylor (x : Q) : Q :=
  Qred (1 + x + x^2 / 2 + x^3 / 6 + x^4 / 24 + x^5 / 120 + x^6 / 720).

(** Stand-in for [math.log10]: the number of decimal digits minus one,
    which is [math.log10] on the powers of ten (the review counts below
    are all 1000). *)
Definition log10_digits (n : Z) : Q :=
  inject_Z (Z.of_nat (String.length (pretty n)) - 1).

Definition distance_table (a b : Location) : Q := 1.5.

Definition always_open (poi : Location) (t : Q) : bool := true.

Definition station : Location :=
  {| id := "xm_station"; name := "厦门站"; lat := 24.4844; lon := 118.0811;
     type := STATION; address := "厦门市思明区厦禾路";
     average_visit_time := 0.0; ticket_price := 0.0 |}.

Definition shuzhuang : Location :=
  {| id := "xm_001"; name := "鼓浪屿菽庄花园"; lat := 24.4403;
     lon := 118.0689; type := ATTRACTION;
     address := "厦门市思明区鼓浪屿港仔后路7号";
     average_visit_time := 2.0; ticket_price := 30.0 |}.

Definition piano_museum : Location :=
  {| id := "xm_002"; name := "鼓浪屿钢琴博物馆"; lat := 24.4411;
     lon := 118.0695; type := ATTRACTION;
     address := "厦门市思明区鼓浪屿港仔后路45号";
     average_visit_time := 2.0; ticket_price := 30.0 |}.

Definition sunlight_rock : Location :=
  {| id := "xm_003"; name := "鼓浪屿日光岩"; lat := 24.4436;
     lon := 118.0672; type := ATTRACTION;
     address := "厦门市思明区鼓浪屿晃岩路62号";
     average_visit_time := 2.0; ticket_price := 50.0 |}.

Definition furong_lake : Location :=
  {| id := "xm_004"; name := "厦大芙蓉湖"; lat := 24.4372;
     lon := 118.0978; type := ATTRACTION;
     address := "厦门市思明区思明南路422号";
     average_visit_time := 2.0; ticket_price := 20.0 |}.

Definition pois (city : string) : list Location :=
  if bool_decide (city = "厦门")
  then [shuzhuang; piano_museum; sunlight_rock; furong_lake] else [].

Definition source (n : string) (r : Q) : DataSource :=
  {| source_name := n; source_rating := r; review_count := 1000;
     last_update := 0 |}.

Definition rated (r : Q) : NodeVerification :=
  {| data_sources :=
       [source "gaode" r; source "ctrip" r; source "mafengwo" r];
     consistency_score := 0.8; weighted_rating := r;
     valid_reviews := 1000; fake_rate := 0.1; positive_rate := 0.9;
     key_positive_words := [];
     spatial_score := 0.8; temporal_score := 0.8;
     predicted_crowd_level := 0.3 |}.

(** A verification engine with fixed answers, which takes nothing from
    the tape: Sunlight Rock is rated 5.0, the other sights 4.5. *)
Definition verify (poi : Location) (st : State) (session : PlanningSession)
    (tape : Tape) : option NodeVerification * Tape :=
  (Some (rated (if bool_decide (id poi = "xm_003") then 5.0 else 4.5)),
   tape).

(** A verification engine that draws like the repository's collector:
    each call takes one draw, and an odd draw rates the sight 5.0, an
    even one 4.5. *)
Definition drawn_verify (poi : Location) (st : State)
    (session : PlanningSession) (tape : Tape)
    : option NodeVerification * Tape :=
  match tape with
  | d :: rest => (Some (rated (if Nat.odd d then 5.0 else 4.5)), rest)
  | [] => (Some (rated 4.5), [])
  end.

Definition deep (poi : Location) (v : NodeVerification)
    (q : option POIQualityScore) (profile : UserProfile)
    (context : DeepContext) : option Q := Some 0.8.

(** The W-axis and the explanation layer run without a language model. *)
Definition rule_w_axis : SemanticCausalFlow.t :=
  {| SemanticCausalFlow.delta := 0.1;
     SemanticCausalFlow.epsilon := 0.1;
     SemanticCausalFlow.causal_analyzer :=
       {| CausalFlowAnalyzer.llm_client := None;
          CausalFlowAnalyzer.spatial_intelligence := None |} |}.

Definition rule_explainer : ExplanationLayer.t :=
  {| ExplanationLayer.llm_client := None |}.

Definition planner : ProgressivePlanner.t :=
  {| poi_db := pois;
     verification_engine := verify;
     score_weights := _default_config;
     deep_analyzer := deep;
     spatial_core := None;
     w_axis := Some rule_w_axis;
     explainer := Some rule_explainer;
     config := default_planner_config |}.

(** [_default_user_profile]. *)
Definition _default_user_profile : UserProfile :=
  {| purpose := <["leisure" := 0.7]> (<["culture" := 0.5]> ∅);
     intensity := <["low" := 0.7]> (<["medium" := 0.3]> ∅);
     pace := <["slow" := 0.8]> (<["medium" := 0.2]> ∅);
     food_preference := ∅;
     budget_level := "medium";
     avoid_crowd_preference := 0.5 |}.

(** [initialize_session] at the station: 72 hours, 5000 yuan. *)
Definition session0 : PlanningSession :=
  {| start_location := station;
     destination_city := "厦门";
     duration := 72; budget := 5000;
     user_profile := _default_user_profile;
     current_state :=
       {| current_location := station; current_time := 0.0;
          visited_history := ∅; visit_quality := ∅;
          remaining_budget := 5000 |};
     path_history := [];
     region_visit_counts := ∅ |}.

Definition next_options (session : PlanningSession) (tape : Tape)
    : list CandidateOption :=
  fst (get_next_options distance_table exp_taylor log10_digits always_open
         planner session None tape).

(** Pick the option at [index] of the current list, as the select route
    does; the session is unchanged when there is no such option. *)
Definition pick (session : PlanningSession) (index : nat)
    : PlanningSession :=
  match next_options session [] !! index with
  | Some o =>
      match select_option session o with
      | Some (session', _) => session'
      | None => session
      end
  | None => session
  end.

(** Two visits on Gulangyu: the garden, then the piano museum. *)
Definition session1 : PlanningSession := pick session0 1.
Definition session2 : PlanningSession := pick session1 1.

(** An option without annotations for a place, as the per-candidate loop
    would start it. *)
Definition plain_option (n : Location) (st : State) : CandidateOption :=
  {| node := n;
     edges := _compute_edges distance_table st n;
     verification := rated 4.5;
     score := 0.8; match_score := 0.7; future_preview := [];
     quality_score := None; edge_score := 1.5; total_score := 0.8;
     risk_level := "info"; explanation := None; c_causal := None;
     region := None; visit_count := None; w_axis_details := None |}.

(** The garden as an option seen from the station, and two edges: a taxi
    ride with the figures the estimator gives it (1.5 km as the crow
    flies), and a bicycle ride that is not among its edges. *)
Definition garden_option : CandidateOption :=
  plain_option shuzhuang (current_state session0).

Definition garden_taxi : Edge :=
  {| edge_id := "taxi_xm_station_xm_001";
     from_loc := station; to_loc := shuzhuang; mode := TAXI;
     distance := 1.95; time := 0.065; cost := 17.875 |}.


(** Three sights of the Gusu district, as the repository's sample data
    has them. *)
Definition humble_garden : Location :=
  {| id := "suzhou_001"; name := "拙政园"; lat := 31.3229; lon := 120.6309;
     type := ATTRACTION; address := "苏州市姑苏区东北街178号";
     average_visit_time := 2.0; ticket_price := 70.0 |}.

Definition suzhou_museum : Location :=
  {| id := "suzhou_002"; name := "苏州博物馆"; lat := 31.3241;
     lon := 120.6294; type := ATTRACTION;
     address := "苏州市姑苏区东北街204号";
     average_visit_time := 1.5; ticket_price := 0.0 |}.

Definition lion_grove : Location :=
  {| id := "suzhou_006"; name := "狮子林"; lat := 31.3213; lon := 120.6298;
     type := ATTRACTION; address := "苏州市姑苏区园林路23号";
     average_visit_time := 1.5; ticket_price := 40.0 |}.

Definition suzhou_station : Location :=
  {| id := "start_demo"; name := "苏州站"; lat := 31.3012; lon := 120.5242;
     type := STATION; address := "苏州市姑苏区苏站路";
     average_visit_time := 0.0; ticket_price := 0.0 |}.

Definition suzhou0 : PlanningSession :=
  {| start_location := suzhou_station;
     destination_city := "苏州";
     duration := 72; budget := 5000;
     user_profile := _default_user_profile;
     current_state :=
       {| current_location := suzhou_station; current_time := 0.0;
          visited_history := ∅; visit_quality := ∅;
          remaining_budget := 5000 |};
     path_history := [];
     region_visit_counts := ∅ |}.

(** The planner of the run with the drawing engine in place of the
    fixed one. *)
Definition drawn_planner : ProgressivePlanner.t :=
  {| poi_db := pois;
     verification_engine := drawn_verify;
     score_weights := _default_config;
     deep_analyzer := deep;
     spatial_core := None;
     w_axis := Some rule_w_axis;
     explainer := Some rule_explainer;
     config := default_planner_config |}.

Definition drawn_options (tape : Tape) : list CandidateOption :=
  fst (get_next_options distance_table exp_taylor log10_digits always_open
         drawn_planner session0 None tape).

(** The planner of the run with the quality filter switched off. *)
Definition unfiltered_planner : ProgressivePlanner.t :=
  {| poi_db := pois;
     verification_engine := verify;
     score_weights := _default_config;
     deep_analyzer := deep;
     spatial_core := None;
     w_axis := Some rule_w_axis;
     explainer := Some rule_explainer;
     config :=
       {| max_candidates := 10; max_distance_km := 50;
          enable_quality_filter := false;
          enable_temporal_filter := true |} |}.

(** A place that takes no time: the square in front of the station, at
    the station's coordinates, with visit time 0. *)
Definition station_square : Location :=
  {| id := "xm_005"; name := "厦门站广场"; lat := 24.4844; lon := 118.0811;
     type := ATTRACTION; address := "厦门市思明区厦禾路";
     average_visit_time := 0.0; ticket_price := 0.0 |}.

(** A distance that is 0 between places with the same coordinates, as
    the great-circle distance is, and 1.5 km otherwise. *)
Definition distance_by_place (a b : Location) : Q :=
  if Qeq_bool (lat a) (lat b) && Qeq_bool (lon a) (lon b)
  then 0 else 1.5.

Definition square_planner : ProgressivePlanner.t :=
  {| poi_db := fun city => station_square :: pois city;
     verification_engine := verify;
     score_weights := _default_config;
     deep_analyzer := deep;
     spatial_core := None;
     w_axis := Some rule_w_axis;
     explainer := Some rule_explainer;
     config := default_planner_config |}.

(** [select_option] on a plain option for [n]. *)
Definition visit (session : PlanningSession) (n : Location)
    : PlanningSession :=
  match select_option session (plain_option n (current_state session)) with
  | Some (session', _) => session'
  | None => session
  end.

(** Two selections in Gusu: the garden, then the museum. *)
Definition suzhou2 : PlanningSession :=
  visit (visit suzhou0 humble_garden) suzhou_museum.

End Scenario.

(** ** Vocabulary of the properties *)

Module Vocabulary.
Import ProgressivePlanner.

(** Some produced edge has mode [m]. *)
Definition has_mode (m : TransportMode) (es : list Edge) : Prop :=
  exists e, In e es /\ mode e = m.

(** The figures of every produced edge, by mode. *)
Definition edge_figures (d : Q) (e : Edge) : Prop :=
  match mode e with
  | WALK => distance e == d /\ time e == distance e / 4 /\ cost e == 0
  | TAXI => distance e == d * 1.3 /\ time e == distance e / 30
            /\ cost e == 13 + 2.5 * distance e
  | BUS => distance e == d * 1.4 /\ time e == distance e / 15 + 0.3
           /\ cost e == 2
  | SUBWAY => distance e == d * 1.2 /\ time e == distance e / 35 + 0.25
              /\ cost e == pymin (2 + distance e / 10) 8
  | BICYCLE => False
  end.

(** [a] may precede [b] in a list sorted by descending score. *)
Definition score_ge (a b : CandidateOption) : Prop := score b <= score a.

(** Options of one score value, in list order. *)
Definition with_score (q : Q) (l : list CandidateOption)
    : list CandidateOption :=
  List.filter (fun o => Qeqb (score o) q) l.

(** The fields fixed by the per-candidate loop; the later stages only
    annotate. *)
Definition base (o : CandidateOption) :=
  (node o, edges o, verification o, score o, match_score o,
   future_preview o, quality_score o, edge_score o, total_score o).

Definition same_base (a b : CandidateOption) : Prop := base a = base b.

(** An option without its explanation. *)
Definition strip (o : CandidateOption) : CandidateOption :=
  set_explanation o None.

(** What the loop stores in an option it keeps. *)
Definition built_from (_haversine_distance : Location -> Location -> Q)
    (exp : Q -> Q) (planner : t) (session : PlanningSession)
    (o : CandidateOption) : Prop :=
  let st := current_state session in
  edges o = _compute_edges _haversine_distance st (node o) /\
  score o = compute_score exp (score_weights planner) (node o) (edges o)
              (verification o) (user_profile session) st /\
  (id (node o) ∉ visited_history st) /\
  In (node o) (poi_db planner (destination_city session)).

(** The final score as the specification words it: the semantic score
    from the tensions, clamped to [-1, 1], and the composed field
    clamped to [0, 1].  The planner computes neither; they are stated
    here only to compare the returned order against them. *)
Definition S_sem_spec (t : Tensions) : Q :=
  pymax (-1) (pymin 1 (0.5 + 0.3 * novelty t + 0.2 * continuity t
                       + 0.1 * energy t)).

Definition phi4_spec (delta epsilon : Q) (o : CandidateOption) : Q :=
  match w_axis_details o with
  | Some d =>
      pymax 0 (pymin 1 (score o + (delta * S_sem_spec (d_tensions d)
                                   + epsilon * d_c_causal d)))
  | None => pymax 0 (pymin 1 (score o))
  end.

(** Whether [explain_choice] reaches a [random.choice]: the
    counter-suggestion of rank 1 in a region visited at least twice, and
    the generic branch of the appeal of rank 2. *)
Definition draws (o : CandidateOption) (context : ExplainContext)
    (rank : nat) : bool :=
  let visit_count := ExplanationLayer.region_count context
      (ExplanationLayer._get_region (node o)) in
  if (2 <=? visit_count)%nat && (rank =? 1)%nat then true
  else if (rank =? 2)%nat then
    negb ((visit_count =? 0)%nat
          && Qltb 0.5 (from_option novelty 0 (ctx_tensions context)))
    && negb (Qltb (from_option energy 0 (ctx_tensions context)) 0)
  else false.

(** The option carries the analyzer's tensions for its own task, and the
    causal score recorded with them. *)
Definition w_annotated (session : PlanningSession) (o : CandidateOption)
    : Prop :=
  exists d,
    w_axis_details o = Some d /\
    c_causal o = Some (d_c_causal d) /\
    d_tensions d
    = CausalFlowAnalyzer._compute_tensions (w_task session o).

(** The option's causal score is the rule-only score of its task. *)
Definition rule_scored (session : PlanningSession) (o : CandidateOption)
    : Prop :=
  c_causal o
  = Some (CausalFlowAnalyzer._rule_causal_score_simple (w_task session o)).

End Vocabulary.
Export Vocabulary.

(** * Properties *)

(** ** Facts about the numeric helpers *)

Module NumFacts.

Lemma Qltb_spec x y : reflect (x < y) (Qltb x y).
Proof.
  unfold Qltb. destruct (Qle_bool y x) eqn:E; constructor.
  - apply Qle_bool_iff in E. lra.
  - assert (~ y <= x) by (rewrite <- Qle_bool_iff; congruence). lra.
Qed.

Lemma Qleb_spec x y : reflect (x <= y) (Qleb x y).
Proof.
  unfold Qleb. destruct (Qle_bool x y) eqn:E; constructor.
  - now apply Qle_bool_iff.
  - rewrite <- Qle_bool_iff. congruence.
Qed.

Lemma Qltb_true x y : Qltb x y = true <-> x < y.
Proof. destruct (Qltb_spec x y); split; intros; try easy. Qed.

Lemma Qltb_false x y : Qltb x y = false <-> y <= x.
Proof. destruct (Qltb_spec x y); split; intros; try easy; lra. Qed.

Lemma Qleb_true x y : Qleb x y = true <-> x <= y.
Proof. destruct (Qleb_spec x y); split; intros; try easy. Qed.

Lemma Qleb_false x y : Qleb x y = false <-> y < x.
Proof. destruct (Qleb_spec x y); split; intros; try easy; lra. Qed.

Lemma pymax_cases a b :
  (a < b /\ pymax a b = b) \/ (b <= a /\ pymax a b = a).
Proof.
  unfold pymax. destruct (Qltb_spec a b); [left | right]; split; auto; lra.
Qed.

Lemma pymin_cases a b :
  (b < a /\ pymin a b = b) \/ (a <= b /\ pymin a b = a).
Proof.
  unfold pymin. destruct (Qltb_spec b a); [left | right]; split; auto; lra.
Qed.

#[global] Instance Qltb_proper : Proper (Qeq ==> Qeq ==> eq) Qltb.
Proof.
  intros x x' Hx y y' Hy.
  destruct (Qltb_spec x y), (Qltb_spec x' y'); try reflexivity; lra.
Qed.

#[global] Instance pymax_proper : Proper (Qeq ==> Qeq ==> Qeq) pymax.
Proof.
  intros x x' Hx y y' Hy. unfold pymax.
  rewrite (Qltb_proper x x' Hx y y' Hy). now destruct (Qltb x' y').
Qed.

#[global] Instance pymin_proper : Proper (Qeq ==> Qeq ==> Qeq) pymin.
Proof.
  intros x x' Hx y y' Hy. unfold pymin.
  rewrite (Qltb_proper y y' Hy x x' Hx). now destruct (Qltb y' x').
Qed.

Lemma clamp_compat lo lo' hi hi' x x' :
  lo == lo' -> hi == hi' -> x == x' ->
  pymax lo (pymin hi x) == pymax lo' (pymin hi' x').
Proof. intros H1 H2 H3. now rewrite H1, H2, H3. Qed.

(** Equations between rational expressions, divisions included. *)
Ltac qeq := first [reflexivity | lra | field].

(** [max(lo, min(hi, x))] stays inside [[lo, hi]]. *)
Lemma clamp_bounds lo hi x :
  lo <= hi -> lo <= pymax lo (pymin hi x) <= hi.
Proof.
  intros Hlh.
  destruct (pymin_cases hi x) as [[H1 E1] | [H1 E1]]; rewrite E1;
    destruct (pymax_cases lo x) as [[H2 E2] | [H2 E2]];
    destruct (pymax_cases lo hi) as [[H3 E3] | [H3 E3]];
    rewrite ?E2, ?E3; lra.
Qed.

(** The clamp is the identity on values already in range. *)
Lemma clamp_id lo hi x :
  lo <= x <= hi -> pymax lo (pymin hi x) == x.
Proof.
  intros [H1 H2].
  destruct (pymin_cases hi x) as [[H3 E1] | [H3 E1]]; rewrite E1.
  - destruct (pymax_cases lo x) as [[H4 E2] | [H4 E2]]; rewrite E2; lra.
  - destruct (pymax_cases lo hi) as [[H4 E2] | [H4 E2]]; rewrite E2; lra.
Qed.

End NumFacts.
Export NumFacts.

(** ** Transport estimator *)

Section TransportFacts.

Variable _haversine_distance : Location -> Location -> Q.

Local Abbreviation _compute_walk_edge := (_compute_walk_edge _haversine_distance).
Local Abbreviation _compute_taxi_edge := (_compute_taxi_edge _haversine_distance).
Local Abbreviation _compute_bus_edge := (_compute_bus_edge _haversine_distance).
Local Abbreviation _compute_subway_edge := (_compute_subway_edge _haversine_distance).
Local Abbreviation _compute_edges := (_compute_edges _haversine_distance).


Lemma edges_unfold st p :
  let c := current_location st in
  let d := _haversine_distance c p in
  _compute_edges st p =
    (if Qltb d 2.0
     then match _compute_walk_edge c p with Some w => [w] | None => [] end
     else [])
    ++ keep (_compute_taxi_edge c p)
    ++ keep (_compute_bus_edge c p)
    ++ keep (_compute_subway_edge c p).
Proof. reflexivity. Qed.

Lemma bus_kept_iff c p :
  is_Some (_compute_bus_edge c p) <->
  1 <= _haversine_distance c p <= 20.
Proof.
  unfold _compute_bus_edge.
  destruct (Qltb_spec (_haversine_distance c p) 1.0) as [H1 | H1];
    destruct (Qltb_spec 20.0 (_haversine_distance c p)) as [H2 | H2];
    simpl; split; intros H;
    try (destruct H as [? H]; discriminate H);
    try (eexists; reflexivity); try lra.
Qed.

Lemma subway_kept_iff c p :
  is_Some (_compute_subway_edge c p) <->
  3 <= _haversine_distance c p <= 30.
Proof.
  unfold _compute_subway_edge.
  destruct (Qltb_spec (_haversine_distance c p) 3.0) as [H1 | H1];
    destruct (Qltb_spec 30.0 (_haversine_distance c p)) as [H2 | H2];
    simpl; split; intros H;
    try (destruct H as [? H]; discriminate H);
    try (eexists; reflexivity); try lra.
Qed.

Lemma bus_edge_shape c p e :
  _compute_bus_edge c p = Some e ->
  mode e = BUS /\
  distance e == _haversine_distance c p * 1.4 /\
  time e == distance e / 15 + 0.3 /\
  cost e == 2.
Proof.
  unfold _compute_bus_edge.
  destruct (_ || _); [discriminate |].
  intros [= <-]; simpl. repeat split; qeq.
Qed.

Lemma subway_edge_shape c p e :
  _compute_subway_edge c p = Some e ->
  mode e = SUBWAY /\
  distance e == _haversine_distance c p * 1.2 /\
  time e == distance e / 35 + 0.25 /\
  cost e == pymin (2 + distance e / 10) 8.
Proof.
  unfold _compute_subway_edge.
  destruct (_ || _); [discriminate |].
  intros [= <-]; simpl. repeat split; try qeq.
  apply pymin_proper; qeq.
Qed.

Lemma in_keep (o : option Edge) e : In e (keep o) <-> o = Some e.
Proof.
  destruct o; simpl; split; intros H.
  - destruct H as [-> | []]. reflexivity.
  - injection H as ->. now left.
  - destruct H.
  - discriminate.
Qed.

(** Membership in the edge list, mode by mode. *)
Lemma in_compute_edges st p e :
  In e (_compute_edges st p) <->
  let c := current_location st in
  (Qltb (_haversine_distance c p) 2.0 = true /\
     _compute_walk_edge c p = Some e)
  \/ _compute_taxi_edge c p = Some e
  \/ _compute_bus_edge c p = Some e
  \/ _compute_subway_edge c p = Some e.
Proof.
  rewrite edges_unfold. cbv zeta.
  rewrite !in_app_iff, !in_keep.
  destruct (Qltb (_haversine_distance (current_location st) p) 2.0).
  - unfold _compute_walk_edge at 1. simpl In.
    split.
    + intros [[H | []] | H]; [left; split; [reflexivity |] | right; exact H].
      unfold _compute_walk_edge. now rewrite H.
    + intros [[_ H] | H]; [left; left | right; exact H].
      unfold _compute_walk_edge in H. now injection H.
  - simpl In. split.
    + intros [[] | H]. right; exact H.
    + intros [[H _] | H]; [discriminate | right; exact H].
Qed.

Lemma compute_edges_nonempty st p : _compute_edges st p <> [].
Proof.
  rewrite edges_unfold. cbv zeta.
  destruct (Qltb _ 2.0); simpl; discriminate.
Qed.

Lemma walk_edge_shape c p e :
  _compute_walk_edge c p = Some e ->
  mode e = WALK /\
  distance e == _haversine_distance c p /\
  time e == distance e / 4 /\
  cost e == 0.
Proof. intros [= <-]; simpl. repeat split; qeq. Qed.

Lemma taxi_edge_shape c p e :
  _compute_taxi_edge c p = Some e ->
  mode e = TAXI /\
  distance e == _haversine_distance c p * 1.3 /\
  time e == distance e / 30 /\
  cost e == 13 + 2.5 * distance e.
Proof. intros [= <-]; simpl. repeat split; qeq. Qed.

(** The mode of an edge tells which estimator produced it. *)
Lemma in_compute_edges_mode st p e :
  In e (_compute_edges st p) ->
  let c := current_location st in
  match mode e with
  | WALK => Qltb (_haversine_distance c p) 2.0 = true
            /\ _compute_walk_edge c p = Some e
  | TAXI => _compute_taxi_edge c p = Some e
  | BUS => _compute_bus_edge c p = Some e
  | SUBWAY => _compute_subway_edge c p = Some e
  | BICYCLE => False
  end.
Proof.
  intros H. apply in_compute_edges in H. cbv zeta in *.
  destruct H as [[Hd H] | [H | [H | H]]].
  - destruct (walk_edge_shape _ _ _ H) as [-> _]. now split.
  - destruct (taxi_edge_shape _ _ _ H) as [-> _]. exact H.
  - destruct (bus_edge_shape _ _ _ H) as [-> _]. exact H.
  - destruct (subway_edge_shape _ _ _ H) as [-> _]. exact H.
Qed.

Lemma has_walk_iff st p :
  has_mode WALK (_compute_edges st p) <->
  _haversine_distance (current_location st) p < 2.
Proof.
  split.
  - intros (e & Hin & Hm). apply in_compute_edges_mode in Hin.
    rewrite Hm in Hin. destruct Hin as [Hd _].
    apply Qltb_true in Hd. lra.
  - intros Hd.
    destruct (_compute_walk_edge (current_location st) p) as [w |] eqn:E;
      [| discriminate E].
    exists w. split.
    + apply in_compute_edges. left. split; [| exact E].
      apply Qltb_true. lra.
    + now destruct (walk_edge_shape _ _ _ E).
Qed.

Lemma has_taxi st p : has_mode TAXI (_compute_edges st p).
Proof.
  destruct (_compute_taxi_edge (current_location st) p) as [w |] eqn:E;
    [| discriminate E].
  exists w. split.
  - apply in_compute_edges. right. now left.
  - now destruct (taxi_edge_shape _ _ _ E).
Qed.

Lemma has_bus_iff st p :
  has_mode BUS (_compute_edges st p) <->
  1 <= _haversine_distance (current_location st) p <= 20.
Proof.
  rewrite <- bus_kept_iff. split.
  - intros (e & Hin & Hm). apply in_compute_edges_mode in Hin.
    rewrite Hm in Hin. cbv zeta in Hin. rewrite Hin. now eexists.
  - intros [e E]. exists e. split.
    + apply in_compute_edges. right. right. now left.
    + now destruct (bus_edge_shape _ _ _ E).
Qed.

Lemma has_subway_iff st p :
  has_mode SUBWAY (_compute_edges st p) <->
  3 <= _haversine_distance (current_location st) p <= 30.
Proof.
  rewrite <- subway_kept_iff. split.
  - intros (e & Hin & Hm). apply in_compute_edges_mode in Hin.
    rewrite Hm in Hin. cbv zeta in Hin. rewrite Hin. now eexists.
  - intros [e E]. exists e. split.
    + apply in_compute_edges. right. right. now right.
    + now destruct (subway_edge_shape _ _ _ E).
Qed.


Lemma compute_edges_figures st p e :
  In e (_compute_edges st p) ->
  edge_figures (_haversine_distance (current_location st) p) e.
Proof.
  intros H. apply in_compute_edges_mode in H. unfold edge_figures.
  cbv zeta in H. destruct (mode e).
  - destruct H as [_ H]. now apply walk_edge_shape in H.
  - now apply taxi_edge_shape in H.
  - now apply bus_edge_shape in H.
  - now apply subway_edge_shape in H.
  - exact H.
Qed.

(** Over a non-negative distance every produced edge takes a
    non-negative time and costs a non-negative amount. *)
Lemma compute_edges_nonneg st p e :
  0 <= _haversine_distance (current_location st) p ->
  In e (_compute_edges st p) ->
  0 <= time e /\ 0 <= cost e.
Proof.
  intros Hd H. apply compute_edges_figures in H. unfold edge_figures in H.
  set (d := _haversine_distance (current_location st) p) in *.
  destruct (mode e); try contradiction;
    destruct H as (H1 & H2 & H3); rewrite H2, H3, H1.
  - split; [| lra]. apply Qle_shift_div_l; lra.
  - split; [apply Qle_shift_div_l; lra | lra].
  - split; [| lra].
    assert (0 <= d * 1.4 / 15) by (apply Qle_shift_div_l; lra). lra.
  - split.
    + assert (0 <= d * 1.2 / 35) by (apply Qle_shift_div_l; lra). lra.
    + assert (0 <= d * 1.2 / 10) by (apply Qle_shift_div_l; lra).
      destruct (pymin_cases (2 + d * 1.2 / 10) 8) as [[_ ->] | [_ ->]];
        lra.
Qed.

End TransportFacts.

(** ** The stable descending sort *)

Section SortFacts.


Lemma insert_desc_perm x l : Permutation (insert_desc x l) (x :: l).
Proof.
  induction l as [| y l IH]; simpl; [reflexivity |].
  destruct (Qltb (score x) (score y)); [| reflexivity].
  rewrite IH. apply perm_swap.
Qed.

Lemma sort_by_score_perm l : Permutation (sort_by_score l) l.
Proof.
  induction l as [| x l IH]; simpl; [reflexivity |].
  rewrite insert_desc_perm. now constructor.
Qed.

Lemma insert_desc_sorted x l :
  StronglySorted score_ge l -> StronglySorted score_ge (insert_desc x l).
Proof.
  induction 1 as [| y l Hs IH Hy]; simpl.
  - repeat constructor.
  - destruct (Qltb_spec (score x) (score y)) as [Hlt | Hge].
    + constructor; [exact IH |].
      rewrite List.Forall_forall in *. intros z Hz.
      apply (Permutation_in _ (insert_desc_perm x l)) in Hz.
      destruct Hz as [<- | Hz]; [unfold score_ge; lra | now apply Hy].
    + constructor; [now constructor |].
      constructor; [unfold score_ge; lra |].
      rewrite List.Forall_forall in *. intros z Hz.
      specialize (Hy z Hz). unfold score_ge in *. lra.
Qed.

Lemma sort_by_score_sorted l : StronglySorted score_ge (sort_by_score l).
Proof.
  induction l as [| x l IH]; simpl; [constructor |].
  now apply insert_desc_sorted.
Qed.


Lemma Qeqb_true x y : Qeqb x y = true <-> x == y.
Proof. apply Qeq_bool_iff. Qed.

Lemma with_score_cons q x l :
  with_score q (x :: l) =
  (if Qeqb (score x) q then [x] else []) ++ with_score q l.
Proof. unfold with_score; simpl. now destruct (Qeqb (score x) q). Qed.

(** Inserting moves an option only past options of a different score. *)
Lemma insert_desc_stable q x l :
  with_score q (insert_desc x l) = with_score q (x :: l).
Proof.
  induction l as [| y l IH]; simpl; [reflexivity |].
  destruct (Qltb_spec (score x) (score y)) as [Hlt | Hge]; [| reflexivity].
  rewrite !with_score_cons, IH, with_score_cons.
  destruct (Qeqb (score x) q) eqn:Ex, (Qeqb (score y) q) eqn:Ey;
    try reflexivity.
  apply Qeqb_true in Ex, Ey. lra.
Qed.

Lemma sort_by_score_stable q l :
  with_score q (sort_by_score l) = with_score q l.
Proof.
  induction l as [| x l IH]; [reflexivity |].
  cbn [sort_by_score].
  now rewrite insert_desc_stable, !with_score_cons, IH.
Qed.

End SortFacts.

(** ** Stages of the pipeline *)

Module StageFacts.
Import ProgressivePlanner.


Lemma same_base_score a b : same_base a b -> score a = score b.
Proof. unfold same_base, base. congruence. Qed.

Lemma same_base_node a b : same_base a b -> node a = node b.
Proof. unfold same_base, base. congruence. Qed.

Lemma same_base_edges a b : same_base a b -> edges a = edges b.
Proof. unfold same_base, base. congruence. Qed.

Lemma same_base_refl l : Forall2 same_base l l.
Proof. induction l; constructor; auto. reflexivity. Qed.

Lemma same_base_trans l1 l2 l3 :
  Forall2 same_base l1 l2 -> Forall2 same_base l2 l3 ->
  Forall2 same_base l1 l3.
Proof.
  intros H. revert l3.
  induction H as [| a b l1 l2 Hab _ IH]; intros l3 H3;
    inversion H3; subst; constructor.
  - unfold same_base in *. congruence.
  - now apply IH.
Qed.

Lemma annotate_same_base session l rs :
  Forall2 same_base (annotate session l rs) l.
Proof.
  revert rs. induction l as [| o l IH]; intros rs; simpl.
  - destruct rs; constructor.
  - destruct rs as [| r rs]; [apply same_base_refl |].
    constructor; [reflexivity | apply IH].
Qed.

Lemma map_same_base (f : CandidateOption -> CandidateOption) l :
  (forall o, same_base (f o) o) -> Forall2 same_base (map f l) l.
Proof. intros Hf. induction l; simpl; constructor; auto. Qed.

Lemma w_axis_stage_same_base planner session l :
  Forall2 same_base (w_axis_stage planner session l) l.
Proof.
  unfold w_axis_stage. destruct l as [| o l]; [constructor |].
  destruct (w_axis planner).
  - apply annotate_same_base.
  - apply map_same_base. reflexivity.
Qed.

Lemma risk_stage_same_base planner session l :
  Forall2 same_base (risk_stage planner session l) l.
Proof.
  unfold risk_stage. destruct (spatial_core planner).
  - apply map_same_base. reflexivity.
  - apply same_base_refl.
Qed.

Lemma insert_desc_same_base x x' l l' :
  same_base x x' -> Forall2 same_base l l' ->
  Forall2 same_base (insert_desc x l) (insert_desc x' l').
Proof.
  intros Hx H. induction H as [| y y' l l' Hy Hl IH]; simpl.
  - repeat constructor. exact Hx.
  - rewrite (same_base_score _ _ Hx), (same_base_score _ _ Hy).
    destruct (Qltb (score x') (score y')); repeat constructor; auto.
Qed.

Lemma sort_same_base l l' :
  Forall2 same_base l l' ->
  Forall2 same_base (sort_by_score l) (sort_by_score l').
Proof.
  induction 1; simpl; [constructor |].
  now apply insert_desc_same_base.
Qed.

(** The explanation loop only fills the explanation field. *)
Lemma explain_loop_strip layer session top rank todo tape :
  map strip (fst (explain_loop layer session top rank todo tape))
  = map strip todo.
Proof.
  revert rank tape. induction todo as [| o todo IH]; intros rank tape;
    simpl; [reflexivity |].
  destruct (ExplanationLayer.explain_choice _ _ _ _ _ _) as [text tape1].
  specialize (IH (S rank) tape1).
  destruct (explain_loop _ _ _ _ _ _) as [rest tape2]. simpl in *.
  now rewrite IH.
Qed.

Lemma explain_stage_strip planner session top tape :
  map strip (fst (explain_stage planner session top tape)) = map strip top.
Proof.
  unfold explain_stage. destruct (explainer planner); [| reflexivity].
  apply explain_loop_strip.
Qed.

Lemma strip_same_base l l' :
  map strip l = map strip l' -> Forall2 same_base l l'.
Proof.
  revert l'. induction l as [| a l IH]; intros [| b l'] H;
    try discriminate; constructor.
  - assert (Hab : strip a = strip b) by (simpl in H; congruence).
    unfold same_base, base.
    pose proof (f_equal node Hab). pose proof (f_equal edges Hab).
    pose proof (f_equal verification Hab). pose proof (f_equal score Hab).
    pose proof (f_equal match_score Hab).
    pose proof (f_equal future_preview Hab).
    pose proof (f_equal quality_score Hab).
    pose proof (f_equal edge_score Hab).
    pose proof (f_equal total_score Hab).
    simpl in *. congruence.
  - apply IH. simpl in H. congruence.
Qed.

Lemma explain_stage_same_base planner session top tape :
  Forall2 same_base (fst (explain_stage planner session top tape)) top.
Proof. apply strip_same_base, explain_stage_strip. Qed.

(** The ranked list is the head of the stable sort of the built options,
    up to annotations. *)
Lemma rank_options_same_base planner session k options tape :
  Forall2 same_base
    (fst (rank_options planner session k options tape))
    (take (default (max_candidates (config planner)) k)
       (sort_by_score options)).
Proof.
  unfold rank_options.
  eapply same_base_trans; [apply explain_stage_same_base |].
  apply Forall2_take.
  eapply same_base_trans; [apply risk_stage_same_base |].
  apply sort_same_base, w_axis_stage_same_base.
Qed.

Lemma same_base_sorted l l' :
  Forall2 same_base l l' ->
  StronglySorted score_ge l' -> StronglySorted score_ge l.
Proof.
  induction 1 as [| a b l l' Hab Hl IH]; intros Hs; [constructor |].
  inversion Hs as [| ? ? Hs' Hb]; subst.
  constructor; [now apply IH |].
  clear IH Hs Hs'. induction Hl as [| c e l l' Hce _ IH'];
    [constructor |].
  inversion Hb; subst. constructor; [| now apply IH'].
  unfold score_ge in *.
  now rewrite (same_base_score _ _ Hab), (same_base_score _ _ Hce).
Qed.

Lemma take_sorted {A} (R : A -> A -> Prop) n (l : list A) :
  StronglySorted R l -> StronglySorted R (take n l).
Proof.
  intros H. revert n. induction H as [| a l Hs IH Ha]; intros [| n];
    simpl; try constructor.
  - apply IH.
  - apply Forall_take. exact Ha.
Qed.

End StageFacts.

(** ** The per-candidate loop *)

Section BuildFacts.
Import ProgressivePlanner StageFacts.

Variable _haversine_distance : Location -> Location -> Q.
Variable exp : Q -> Q.
Variable log10 : Z -> Q.
Variable is_open : Location -> Q -> bool.
Variable planner : ProgressivePlanner.t.

Local Abbreviation build_options :=
  (build_options _haversine_distance exp log10 is_open planner).
Local Abbreviation build_option :=
  (build_option _haversine_distance exp log10 is_open planner).
Local Abbreviation _compute_candidates :=
  (_compute_candidates _haversine_distance is_open planner).
Local Abbreviation get_next_options :=
  (get_next_options _haversine_distance exp log10 is_open planner).


Lemma candidate_unvisited session n :
  In n (_compute_candidates session) ->
  (id n ∉ visited_history (current_state session))
  /\ In n (poi_db planner (destination_city session)).
Proof.
  unfold ProgressivePlanner._compute_candidates.
  rewrite filter_In. intros [Hin Hc]. split; [| exact Hin].
  unfold is_candidate in Hc.
  apply andb_prop in Hc as [_ Hc].
  apply negb_true_iff, bool_decide_eq_false in Hc. exact Hc.
Qed.

Lemma build_option_built session n tape o :
  In n (_compute_candidates session) ->
  fst (build_option session n tape) = Some o ->
  built_from _haversine_distance exp planner session o.
Proof.
  intros Hc. unfold ProgressivePlanner.build_option.
  destruct (min_list _) as [dmin |]; [| discriminate].
  destruct (min_list _) as [tmin |]; [| discriminate].
  destruct (verification_engine _ _ _ _ _) as [[v |] tape1];
    [| discriminate].
  cbn [fst].
  destruct (_ && _); [discriminate |].
  destruct (deep_analyzer _ _ _ _ _ _) as [a |]; [| discriminate].
  intros [= <-]. unfold built_from; simpl.
  destruct (candidate_unvisited _ _ Hc). auto.
Qed.

(** Two runs of the loop in which the engine gives the same answers keep
    the same options. *)
Lemma build_loop_by_answers session candidates tape1 tape2 :
  engine_answers _haversine_distance planner session candidates tape1
  = engine_answers _haversine_distance planner session candidates tape2 ->
  fst (build_loop _haversine_distance exp log10 is_open planner session
         candidates tape1)
  = fst (build_loop _haversine_distance exp log10 is_open planner session
           candidates tape2).
Proof.
  revert tape1 tape2.
  induction candidates as [| n rest IH]; intros tape1 tape2;
    [reflexivity |].
  cbn [build_loop engine_answers].
  unfold ProgressivePlanner.build_option. cbv zeta.
  destruct (min_list (map distance _)) as [dmin |].
  2:{ intros H. specialize (IH _ _ H).
      destruct (build_loop _ _ _ _ _ _ rest tape1).
      destruct (build_loop _ _ _ _ _ _ rest tape2). exact IH. }
  destruct (min_list (map time _)) as [tmin |].
  2:{ intros H. specialize (IH _ _ H).
      destruct (build_loop _ _ _ _ _ _ rest tape1).
      destruct (build_loop _ _ _ _ _ _ rest tape2). exact IH. }
  destruct (verification_engine planner n _ session tape1)
    as [answer1 tape1'].
  destruct (verification_engine planner n _ session tape2)
    as [answer2 tape2'].
  intros [= -> H]. specialize (IH _ _ H).
  destruct (build_loop _ _ _ _ _ _ rest tape1').
  destruct (build_loop _ _ _ _ _ _ rest tape2').
  cbn [fst] in *. now rewrite IH.
Qed.

(** Every option kept by the loop was built for one of the candidates,
    on the tape the loop had reached. *)
Lemma build_loop_origin session candidates tape o :
  In o (fst (build_loop _haversine_distance exp log10 is_open planner
               session candidates tape)) ->
  exists n tape0,
    In n candidates /\ fst (build_option session n tape0) = Some o.
Proof.
  revert tape. induction candidates as [| n rest IH]; intros tape;
    [intros [] |].
  cbn [build_loop].
  destruct (build_option session n tape) as [built tape1] eqn:Eb.
  specialize (IH tape1).
  destruct (build_loop _ _ _ _ _ _ rest tape1) as [options tape2].
  cbn [fst] in *. intros Ho.
  assert (Hcase : built = Some o \/ In o options).
  { destruct built as [x |]; [destruct Ho as [<- | Ho] |]; auto. }
  destruct Hcase as [-> | Hin].
  - exists n, tape. split; [now left | now rewrite Eb].
  - destruct (IH Hin) as (m & tape0 & Hm & Hb).
    exists m, tape0. split; [now right | exact Hb].
Qed.

Lemma build_options_built session tape :
  Forall (built_from _haversine_distance exp planner session)
    (fst (build_options session tape)).
Proof.
  apply List.Forall_forall. intros o Ho.
  apply build_loop_origin in Ho as (n & tape0 & Hn & Hb).
  eauto using build_option_built.
Qed.

Lemma built_from_same_base session a b :
  same_base a b ->
  built_from _haversine_distance exp planner session b ->
  built_from _haversine_distance exp planner session a.
Proof.
  unfold same_base, base, built_from. intros H.
  injection H as -> -> -> -> _ _ _ _ _. auto.
Qed.

(** [get_next_options] is the ranking of the built options, on the
    tape the loop leaves. *)
Lemma get_next_options_unfold session k tape :
  get_next_options session k tape
  = rank_options planner session k (fst (build_options session tape))
      (snd (build_options session tape)).
Proof.
  unfold ProgressivePlanner.get_next_options.
  now destruct (build_options session tape).
Qed.



(** Every returned option was built by the loop. *)
Lemma next_options_built session k tape :
  Forall (built_from _haversine_distance exp planner session)
    (fst (get_next_options session k tape)).
Proof.
  rewrite get_next_options_unfold.
  set (built := fst (build_options session tape)).
  set (tape1 := snd (build_options session tape)).
  pose proof (rank_options_same_base planner session k built tape1) as H.
  assert (Hs : Forall (built_from _haversine_distance exp planner session)
                 (take (default (max_candidates (config planner)) k)
                    (sort_by_score built))).
  { apply Forall_take.
    eapply Permutation_Forall;
      [symmetry; apply sort_by_score_perm | apply build_options_built]. }
  revert Hs. induction H as [| a b l l' Hab _ IH]; intros Hs;
    [constructor |].
  inversion Hs; subst.
  constructor; [eauto using built_from_same_base | auto].
Qed.

End BuildFacts.

(** ** Ranking and transport over the whole pipeline *)


Section PipelineClaims.
Import ProgressivePlanner StageFacts.

Variable _haversine_distance : Location -> Location -> Q.
Variable exp : Q -> Q.
Variable log10 : Z -> Q.
Variable is_open : Location -> Q -> bool.
Variable planner : ProgressivePlanner.t.

Local Abbreviation build_options :=
  (build_options _haversine_distance exp log10 is_open planner).
Local Abbreviation get_next_options :=
  (get_next_options _haversine_distance exp log10 is_open planner).
Local Abbreviation _compute_edges := (_compute_edges _haversine_distance).

(** C1, as amended.  The options returned by [get_next_options] are the
    first [k] of the built options sorted by descending base score
    [score] (the value of [compute_score], i.e. the base field), up to
    the annotations added later; the sort is a permutation and keeps
    options of equal score in the order in which they were built.  The
    W-axis values do not enter the key. *)
Theorem next_options_ranked_by_base_score session k tape :
  let built := fst (build_options session tape) in
  let returned := fst (get_next_options session k tape) in
  StronglySorted score_ge returned /\
  Forall2 same_base returned
    (take (default (max_candidates (config planner)) k)
       (sort_by_score built)) /\
  Permutation (sort_by_score built) built /\
  (forall q, with_score q (sort_by_score built) = with_score q built) /\
  Forall (fun o =>
            score o = compute_score exp (score_weights planner) (node o)
                        (edges o) (verification o) (user_profile session)
                        (current_state session)) returned.
Proof.
  cbv zeta.
  pose proof (rank_options_same_base planner session k
                (fst (build_options session tape))
                (snd (build_options session tape))) as Hb.
  rewrite <- (get_next_options_unfold _haversine_distance exp log10 is_open)
    in Hb.
  repeat split.
  - eapply same_base_sorted; [exact Hb |].
    apply take_sorted, sort_by_score_sorted.
  - exact Hb.
  - apply sort_by_score_perm.
  - intros q. apply sort_by_score_stable.
  - eapply Forall_impl;
      [apply (next_options_built _haversine_distance exp log10 is_open) |].
    intros o (_ & Hs & _). exact Hs.
Qed.

(** C5, as amended.  For a candidate at great-circle distance [dist]:
    a walk edge is produced iff [dist < 2]; a taxi edge always; a bus
    edge iff [1 <= dist <= 20]; a subway edge iff [3 <= dist <= 30]
    (both upper bounds included); every produced edge has the distance,
    time and cost of its mode; a candidate without edges is dropped, the
    edge list is never empty, and every option returned by
    [get_next_options] has at least one edge. *)
Theorem transport_enumeration session k tape (st : State) (p : Location) :
  let es := _compute_edges st p in
  let dist := _haversine_distance (current_location st) p in
  (has_mode WALK es <-> dist < 2) /\
  has_mode TAXI es /\
  (has_mode BUS es <-> 1 <= dist <= 20) /\
  (has_mode SUBWAY es <-> 3 <= dist <= 30) /\
  (forall e, In e es -> edge_figures dist e) /\
  es <> [] /\
  (forall n tape0,
     _compute_edges (current_state session) n = [] ->
     build_option _haversine_distance exp log10 is_open planner session n
       tape0
     = (None, tape0)) /\
  Forall (fun o => edges o <> []) (fst (get_next_options session k tape)).
Proof.
  cbv zeta.
  split; [apply has_walk_iff |].
  split; [apply has_taxi |].
  split; [apply has_bus_iff |].
  split; [apply has_subway_iff |].
  split; [intros e; apply compute_edges_figures |].
  split; [apply compute_edges_nonempty |].
  split.
  { intros n tape0 Hn. unfold ProgressivePlanner.build_option.
    now rewrite Hn. }
  eapply Forall_impl;
    [apply (next_options_built _haversine_distance exp log10 is_open) |].
  intros o (He & _). rewrite He. apply compute_edges_nonempty.
Qed.

End PipelineClaims.

(** [upgrade_to_4d_potential] adds without clamping. *)
Example upgrade_is_not_clamped :
  SemanticCausalFlow.upgrade_to_4d_potential 0.95 0.18 == 1.13.
Proof. reflexivity. Qed.

(** C1, counterexample.  After two visits on Gulangyu the pipeline
    returns Sunlight Rock before Furong Lake, although the composed
    score of the specification is strictly larger for Furong Lake. *)
Lemma ranking_not_by_phi4_counterexample :
  match Scenario.next_options Scenario.session2 [] with
  | [first; second] =>
      node first = Scenario.sunlight_rock /\
      node second = Scenario.furong_lake /\
      phi4_spec 0.1 0.1 first < phi4_spec 0.1 0.1 second
  | _ => False
  end.
Proof. vm_compute. repeat split. Qed.

(** C5, counterexample.  At a great-circle distance of exactly 20 km the
    bus edge is produced, although 20 < 20 fails. *)
Lemma bus_edge_at_20_km_counterexample :
  let d := fun _ _ : Location => 20 in
  has_mode BUS
    (_compute_edges d (current_state Scenario.session0)
       Scenario.furong_lake)
  /\ ~ (1 <= d Scenario.station Scenario.furong_lake < 20).
Proof.
  cbv zeta. split.
  - apply has_bus_iff. simpl. lra.
  - lra.
Qed.

(** ** Selection *)

Section MinByTime.

Lemma min_by_time_from_spec best es :
  let m := min_by_time_from best es in
  In m (best :: es) /\ time m <= time best /\
  (forall e, In e es -> time m <= time e).
Proof.
  revert best. induction es as [| x es IH]; intros best; simpl.
  - split; [now left |]. split; [lra | intros e []].
  - destruct (IH (if Qltb (time x) (time best) then x else best))
      as (Hin & Hle & Hall).
    destruct (Qltb_spec (time x) (time best)) as [Hlt | Hge].
    + split; [destruct Hin as [<- | Hin]; auto |].
      split; [lra |]. intros e [<- | He]; auto.
    + split; [destruct Hin as [<- | Hin]; auto |].
      split; [lra |]. intros e [<- | He]; [lra | auto].
Qed.

Lemma min_by_time_spec es best :
  min_by_time es = Some best ->
  In best es /\ (forall e, In e es -> time best <= time e).
Proof.
  destruct es as [| x es]; [discriminate |]. intros [= <-].
  destruct (min_by_time_from_spec x es) as (Hin & Hle & Hall).
  split; [exact Hin |]. intros e [<- | He]; auto.
Qed.

Lemma min_by_time_some es :
  es <> [] -> exists best, min_by_time es = Some best.
Proof. destruct es; [congruence | eexists; reflexivity]. Qed.

End MinByTime.

Section SelectionClaims.
Import ProgressivePlanner StageFacts.

(** C7, as amended.  [user_select] moves the session to the option's
    place; the elapsed time grows by exactly the edge's time plus the
    place's average visit time, so it grows strictly exactly when that
    sum is positive and stays as it is when the sum is zero; the budget
    shrinks by exactly the edge's cost plus the ticket price; the
    place's id joins the visited set; the count of the place's region
    (0 when the region has no entry yet) grows by one and no other
    count changes; one entry, holding the action and the states before
    and after, is appended to the path history. *)
Theorem user_select_updates (s : PlanningSession) (o : CandidateOption)
    (e : Edge) :
  let st := current_state s in
  let n := node o in
  let s' := fst (user_select s o e) in
  let st' := snd (user_select s o e) in
  current_state s' = st' /\
  current_location st' = n /\
  current_time st' == current_time st + (time e + average_visit_time n) /\
  (current_time st < current_time st'
   <-> 0 < time e + average_visit_time n) /\
  (time e + average_visit_time n == 0 ->
   current_time st' == current_time st) /\
  remaining_budget st'
    == remaining_budget st - (cost e + ticket_price n) /\
  visited_history st' = visited_history st ∪ {[ id n ]} /\
  (id n ∈ visited_history st') /\
  region_visit_counts s' !! _get_region n
    = Some (default 0 (region_visit_counts s !! _get_region n) + 1)%nat /\
  (forall r, r <> _get_region n ->
     region_visit_counts s' !! r = region_visit_counts s !! r) /\
  exists a,
    path_history s'
      = path_history s
        ++ [ {| ph_action := a; previous_state := st; new_state := st' |} ]
    /\ target_node a = n /\ selected_edge a = Some e.
Proof.
  cbv zeta. unfold user_select; simpl.
  split; [reflexivity |].
  split; [reflexivity |].
  split; [lra |].
  split; [split; intros H; lra |].
  split; [intros H; lra |].
  split; [lra |].
  split; [reflexivity |].
  split; [set_solver |].
  split; [apply lookup_insert_eq |].
  split; [intros r Hr; now apply lookup_insert_ne |].
  eexists. repeat split.
Qed.

(** C9.  [select_option] applies, through [user_select], an edge of the
    option whose time is least among the option's edges; on the route the
    request carries only the session id and an option index, and a
    successful response stores exactly the session produced by that
    call for the option at the given index of the freshly computed
    list.  A request answered with an error either leaves the stored
    session as it is (or drops it, when expired) or has stored the
    session produced by that same call. *)
Theorem select_option_applies_fastest_edge
    (d : Location -> Location -> Q) (exp : Q -> Q) (log10 : Z -> Q)
    (is_open : Location -> Q -> bool) (planner : ProgressivePlanner.t)
    (converts : PlanningSession -> CandidateOption -> bool)
    (sessions : gmap string PlanningSession) (expired : bool)
    (session_id : string) (option_index : Z) (tape : Tape) :
  (forall s o, edges o <> [] ->
     exists best,
       In best (edges o) /\
       (forall e, In e (edges o) -> time best <= time e) /\
       select_option s o = Some (user_select s o best)) /\
  match Routes.select_option d exp log10 is_open planner converts sessions
          expired session_id option_index tape with
  | (Routes.Selected o st', sessions', _) =>
      exists session best,
        sessions !! session_id = Some session /\
        fst (get_next_options d exp log10 is_open planner session None tape)
          !! Z.to_nat option_index = Some o /\
        In best (edges o) /\
        (forall e, In e (edges o) -> time best <= time e) /\
        st' = snd (user_select session o best) /\
        sessions' = <[ session_id := fst (user_select session o best) ]>
                      sessions
  | (Routes.HTTPException _, sessions', _) =>
      sessions' = sessions \/ sessions' = delete session_id sessions
      \/ exists session o best,
           sessions !! session_id = Some session /\
           fst (get_next_options d exp log10 is_open planner session None
                  tape)
             !! Z.to_nat option_index = Some o /\
           In best (edges o) /\
           (forall e, In e (edges o) -> time best <= time e) /\
           sessions' = <[ session_id := fst (user_select session o best) ]>
                         sessions
  end.
Proof.
  split.
  - intros s o Hne. destruct (min_by_time_some _ Hne) as [best Hb].
    exists best. destruct (min_by_time_spec _ _ Hb) as [Hin Hmin].
    repeat split; auto. unfold select_option. now rewrite Hb.
  - unfold Routes.select_option, Routes.get_session.
    destruct (sessions !! session_id) as [session |] eqn:Es;
      [| now left].
    destruct expired; [right; now left |].
    destruct (get_next_options _ _ _ _ _ _ _ _) as [options tape1] eqn:Eo.
    destruct (_ || _); [now left |].
    destruct (options !! Z.to_nat option_index) as [o |] eqn:El;
      [| now left].
    unfold select_option.
    destruct (min_by_time (edges o)) as [best |] eqn:Eb; [| now left].
    destruct (user_select session o best) as [session' st'] eqn:Eu.
    destruct (min_by_time_spec _ _ Eb) as [Hin Hmin].
    destruct (Routes.response_built _ _ _).
    + exists session, best. rewrite Eu. simpl. repeat split; auto.
      rewrite Eo. exact El.
    + right; right. exists session, o, best. rewrite Eu. simpl.
      repeat split; auto. rewrite Eo. exact El.
Qed.


(** For an option returned by the pipeline, over non-negative distances
    and with a positive visit time, selecting any of its edges advances
    the clock. *)
Lemma returned_option_advances_clock
    (d : Location -> Location -> Q) (exp : Q -> Q) (log10 : Z -> Q)
    (is_open : Location -> Q -> bool) (planner : ProgressivePlanner.t)
    (session : PlanningSession) (k : option nat) (tape : Tape)
    (o : CandidateOption) (e : Edge) :
  (forall a b, 0 <= d a b) ->
  In o (fst (get_next_options d exp log10 is_open planner session k tape)) ->
  In e (edges o) ->
  0 < average_visit_time (node o) ->
  current_time (current_state session)
  < current_time (snd (user_select session o e)).
Proof.
  intros Hd Ho He Hv.
  pose proof (next_options_built d exp log10 is_open planner session k
                tape) as Hb.
  rewrite List.Forall_forall in Hb. destruct (Hb o Ho) as (Hes & _).
  rewrite Hes in He.
  destruct (compute_edges_nonneg d _ _ _ (Hd _ _) He) as [Ht _].
  unfold user_select; simpl. lra.
Qed.

End SelectionClaims.

Section SelectionRuns.
Import ProgressivePlanner Scenario.

(** C7, witness: the taxi ride from the station to the garden takes
    time, so the clock moves on. *)
Lemma user_select_updates_witness :
  0 < time garden_taxi + average_visit_time (node garden_option) /\
  current_time (current_state session0)
  < current_time (snd (user_select session0 garden_option garden_taxi)).
Proof.
  assert (H : 0 < time garden_taxi
                  + average_visit_time (node garden_option))
    by (vm_compute; reflexivity).
  split; [exact H |].
  exact (proj2 (proj1 (proj2 (proj2 (proj2
           (user_select_updates session0 garden_option garden_taxi))))) H).
Defined.

(** C7, counterexample.  With the station square in the store, the
    pipeline returns it first at the station; selecting it through the
    route is answered with the response, the place was not visited
    before, and the clock stays at 0: the walk takes no time and the
    visit none. *)
Lemma selection_keeps_clock_counterexample :
  current_time (current_state session0) == 0 /\
  ("xm_005" ∉ visited_history (current_state session0)) /\
  match Routes.select_option distance_by_place exp_taylor log10_digits
          always_open square_planner (fun _ _ => true)
          {[ "demo" := session0 ]} false "demo" 0 []
  with
  | (Routes.Selected o st', sessions', _) =>
      id (node o) = "xm_005" /\
      current_location st' = station_square /\
      (current_state <$> sessions' !! "demo") = Some st' /\
      current_time st' == 0 /\
      ~ current_time (current_state session0) < current_time st'
  | _ => False
  end.
Proof.
  split; [reflexivity |].
  split; [set_solver |].
  destruct (Routes.select_option _ _ _ _ _ _ _ _ _ _ _)
    as [[[o st' | code] sessions'] tape'] eqn:E;
    vm_compute in E; [| discriminate E].
  injection E as <- <- <- _.
  split; [reflexivity |].
  split; [reflexivity |].
  split; [vm_compute; reflexivity |].
  split; [reflexivity |].
  vm_compute. discriminate.
Qed.

(** C9, witness: the garden option has edges, so the fastest one is
    applied. *)
Lemma select_option_applies_fastest_edge_witness :
  edges garden_option <> [] /\
  exists best,
    In best (edges garden_option) /\
    (forall e, In e (edges garden_option) -> time best <= time e) /\
    select_option session0 garden_option
    = Some (user_select session0 garden_option best).
Proof.
  assert (H : edges garden_option <> []) by (vm_compute; discriminate).
  split; [exact H |].
  apply (select_option_applies_fastest_edge distance_table exp_taylor
           log10_digits always_open planner (fun _ _ => true) ∅ false "" 0
           []).
  exact H.
Defined.

(** On the route, index 1 at the station selects the garden. *)
Example select_route_selects_garden :
  match Routes.select_option distance_table exp_taylor log10_digits
          always_open planner (fun _ _ => true) {[ "demo" := session0 ]}
          false "demo" 1 []
  with
  | (Routes.Selected o st', _, _) =>
      node o = shuzhuang /\ current_location st' = shuzhuang
  | _ => False
  end.
Proof. vm_compute. split; reflexivity. Qed.

(** With the quality filter off the options carry no quality score, so
    the same request is answered with status 500, after the stored
    session has moved to the garden. *)
Example select_route_500_after_advance :
  match Routes.select_option distance_table exp_taylor log10_digits
          always_open unfiltered_planner (fun _ _ => true)
          {[ "demo" := session0 ]} false "demo" 1 []
  with
  | (Routes.HTTPException code, sessions', _) =>
      code = 500%nat /\
      (current_location <$> (current_state <$> sessions' !! "demo"))
      = Some shuzhuang
  | _ => False
  end.
Proof. vm_compute. split; reflexivity. Qed.


End SelectionRuns.

(** ** Tensions and the rule-only causal score *)

Section TensionFacts.
Import CausalFlowAnalyzer.

Lemma positive_count_cons x l :
  positive_count (x :: l)
  = ((if Qltb 0 x then 1 else 0) + positive_count l)%nat.
Proof.
  unfold positive_count. rewrite filter_cons.
  case_decide as H; [rewrite H; reflexivity |].
  apply not_true_is_false in H. rewrite H. reflexivity.
Qed.

Lemma negative_count_cons x l :
  negative_count (x :: l)
  = ((if Qltb x 0 then 1 else 0) + negative_count l)%nat.
Proof.
  unfold negative_count. rewrite filter_cons.
  case_decide as H; [rewrite H; reflexivity |].
  apply not_true_is_false in H. rewrite H. reflexivity.
Qed.

Lemma positive_count_pos l :
  (0 < positive_count l)%nat <-> exists x, In x l /\ 0 < x.
Proof.
  induction l as [| y l IH].
  - split; [inversion 1 | intros (x & [] & _)].
  - rewrite positive_count_cons.
    destruct (Qltb_spec 0 y) as [Hy | Hy]; simpl.
    + split; [intros _; exists y; auto | lia].
    + rewrite IH. split.
      * intros (x & Hx & Hp). exists x. auto.
      * intros (x & [<- | Hx] & Hp); [contradiction | eauto].
Qed.

Lemma negative_count_pos l :
  (0 < negative_count l)%nat <-> exists x, In x l /\ x < 0.
Proof.
  induction l as [| y l IH].
  - split; [inversion 1 | intros (x & [] & _)].
  - rewrite negative_count_cons.
    destruct (Qltb_spec y 0) as [Hy | Hy]; simpl.
    + split; [intros _; exists y; auto | lia].
    + rewrite IH. split.
      * intros (x & Hx & Hp). exists x. auto.
      * intros (x & [<- | Hx] & Hp); [contradiction | eauto].
Qed.

(** No value is counted on both sides. *)
Lemma counts_disjoint l :
  (positive_count l + negative_count l <= length l)%nat.
Proof.
  induction l as [| y l IH]; [reflexivity |].
  rewrite positive_count_cons, negative_count_cons. simpl length.
  destruct (Qltb_spec 0 y), (Qltb_spec y 0); simpl; try lia. lra.
Qed.

(** With three tensions the smaller count is 0 or 1. *)
Lemma conflict_of_three a b c :
  let vs := [a; b; c] in
  let m := Nat.min (positive_count vs) (negative_count vs) in
  conflict_of vs == inject_Z (Z.of_nat m) / 3 /\
  (conflict_of vs == 0 \/ conflict_of vs == 1 / 3) /\
  (0 < conflict_of vs <->
   (exists x, In x vs /\ 0 < x) /\ (exists y, In y vs /\ y < 0)).
Proof.
  cbv zeta. set (vs := [a; b; c]).
  rewrite <- positive_count_pos, <- negative_count_pos.
  pose proof (counts_disjoint vs) as Hd. change (length vs) with 3%nat in Hd.
  unfold conflict_of. change (length vs) with 3%nat.
  destruct (positive_count vs) as [| [| p]] eqn:Ep;
    destruct (negative_count vs) as [| [| n]] eqn:En;
    simpl in Hd |- *; try lia;
    (split; [vm_compute; reflexivity |]);
    (split; [first [left; vm_compute; reflexivity
                   | right; vm_compute; reflexivity] |]);
    (split; [intros H; try (vm_compute in H; discriminate H); lia
            | intros [H1 H2]; try lia; vm_compute; reflexivity]).
Qed.

End TensionFacts.

Section TensionClaims.
Import CausalFlowAnalyzer.

(** C8.  The conflict of a candidate is min(pos, neg) / 3, where pos and
    neg count the strictly positive and the strictly negative values
    among novelty, continuity and energy; it is one of 0, 1/3, 2/3; and
    it is positive exactly when the three values include a strictly
    positive and a strictly negative one. *)
Theorem conflict_of_tensions (task : Task) :
  let t := _compute_tensions task in
  let vs := [novelty t; continuity t; energy t] in
  conflict t
    == inject_Z (Z.of_nat (Nat.min (positive_count vs)
                             (negative_count vs))) / 3 /\
  (conflict t == 0 \/ conflict t == 1 / 3 \/ conflict t == 2 / 3) /\
  (0 < conflict t <->
   (exists x, In x vs /\ 0 < x) /\ (exists y, In y vs /\ y < 0)).
Proof.
  cbv zeta.
  destruct (conflict_of_three
              (novelty (_compute_tensions task))
              (continuity (_compute_tensions task))
              (energy (_compute_tensions task))) as (H1 & H2 & H3).
  split; [exact H1 |]. split; [| exact H3].
  destruct H2 as [H2 | H2]; [left | right; left]; exact H2.
Qed.

(** With three values the two counts cannot both reach 2, so the value
    2/3 is never taken. *)
Lemma conflict_never_two_thirds (task : Task) :
  ~ conflict (_compute_tensions task) == 2 / 3.
Proof.
  destruct (conflict_of_three
              (novelty (_compute_tensions task))
              (continuity (_compute_tensions task))
              (energy (_compute_tensions task))) as (_ & H2 & _).
  change (conflict (_compute_tensions task))
    with (conflict_of [novelty (_compute_tensions task);
                       continuity (_compute_tensions task);
                       energy (_compute_tensions task)]).
  destruct H2 as [H2 | H2]; rewrite H2; intros H; vm_compute in H;
    discriminate H.
Qed.

(** The novelty tension follows the visit count of the analyzer's own
    region label. *)
Lemma novelty_by_analyzer_region (task : Task) :
  let count := get_or (visited_regions (task_context task))
                 (_get_region (task_next task)) 0%nat in
  (count = 0%nat -> novelty (_compute_tensions task) = 0.8) /\
  (count = 1%nat -> novelty (_compute_tensions task) = -0.3) /\
  ((2 <= count)%nat -> novelty (_compute_tensions task) = -0.6).
Proof.
  cbv zeta. unfold _compute_tensions; simpl.
  destruct (get_or _ _ _) as [| [| n]]; repeat split; intros; try lia;
    reflexivity.
Qed.

(** A region list extended at the end labels a place as the shorter list
    does, whenever the shorter list finds a keyword. *)
Lemma first_region_app keys more poi :
  first_region keys poi <> "其他" ->
  first_region (keys ++ more) poi = first_region keys poi.
Proof.
  induction keys as [| k keys IH]; simpl; [congruence |].
  destruct (contains k (name poi) || contains k (address poi));
    [reflexivity | exact IH].
Qed.

(** On places that match one of the five Xiamen keywords the analyzer,
    the coordinator and the explanation layer give the same label. *)
Lemma xiamen_regions_agree (poi : Location) :
  _get_region poi <> "其他" ->
  ProgressivePlanner._get_region poi = _get_region poi /\
  ExplanationLayer._get_region poi = _get_region poi.
Proof.
  intros H. split.
  - apply (first_region_app
             ["鼓浪屿"; "厦大"; "曾厝垵"; "中山路"; "环岛路"]
             ["姑苏"; "虎丘"; "金鸡湖"; "平江路"; "山塘街";
              "西湖"; "灵隐"; "河坊街"; "钱塘江";
              "外滩"; "陆家嘴"; "南京路"; "豫园"] poi H).
  - apply (first_region_app
             ["鼓浪屿"; "厦大"; "曾厝垵"; "中山路"; "环岛路"]
             ["姑苏"; "虎丘"; "金鸡湖"; "平江路"; "山塘街"] poi H).
Qed.

Lemma rule_score_bounds (task : Task) :
  0.1 <= _rule_causal_score_simple task <= 0.95.
Proof. unfold _rule_causal_score_simple. apply clamp_bounds. lra. Qed.

Lemma batch_rule_lookup tasks i task :
  tasks !! i = Some task ->
  _batch_rule_reason_with_tensions tasks !! i
  = Some {| w_c_causal := _rule_causal_score_simple task;
            w_tensions := _compute_tensions task |}.
Proof.
  intros H. unfold _batch_rule_reason_with_tensions.
  change (map ?f ?l) with (f <$> l).
  now rewrite list_lookup_fmap, H.
Qed.

Lemma batch_llm_lookup reason tasks i task :
  tasks !! i = Some task ->
  _batch_llm_reason_with_tensions reason tasks !! i
  = Some {| w_c_causal :=
              match reason i task with
              | Some s => s
              | None => _rule_causal_score_simple task
              end;
            w_tensions := _compute_tensions task |}.
Proof.
  intros H. unfold _batch_llm_reason_with_tensions, _batch_llm_reason.
  rewrite lookup_zip_with, H. simpl.
  now rewrite list_lookup_imap, H.
Qed.

(** C10.  When no language model and no spatial reasoner is configured,
    or when the language model answers nothing for a task, the causal
    score of that task is max(0.1, min(0.95, 0.5 + 0.3 novelty
    + 0.2 continuity + 0.1 energy)) over the task's tensions; it lies in
    [0.1, 0.95] and is neither 0 nor 1. *)
Theorem rule_fallback_c_causal (a : CausalFlowAnalyzer.t)
    (tasks : list Task) (i : nat) (task : Task) :
  tasks !! i = Some task ->
  (llm_client a = None /\ spatial_intelligence a = None)
  \/ (exists reason, llm_client a = Some reason /\ reason i task = None) ->
  exists r,
    batch_compute_causal_flow a tasks !! i = Some r /\
    w_tensions r = _compute_tensions task /\
    w_c_causal r
      == pymax 0.1 (pymin 0.95
                     (0.5 + 0.3 * novelty (w_tensions r)
                      + 0.2 * continuity (w_tensions r)
                      + 0.1 * energy (w_tensions r))) /\
    0.1 <= w_c_causal r <= 0.95 /\
    ~ w_c_causal r == 0 /\ ~ w_c_causal r == 1.
Proof.
  intros Hi Hcase.
  exists {| w_c_causal := _rule_causal_score_simple task;
            w_tensions := _compute_tensions task |}.
  pose proof (rule_score_bounds task) as Hb. simpl.
  split.
  { unfold batch_compute_causal_flow.
    destruct tasks as [| t0 tasks0] eqn:Et; [discriminate Hi |].
    rewrite <- Et in *.
    destruct Hcase as [[-> ->] | (reason & -> & Hr)].
    - now apply batch_rule_lookup.
    - rewrite (batch_llm_lookup _ _ _ _ Hi), Hr. reflexivity. }
  split; [reflexivity |].
  split.
  { unfold _rule_causal_score_simple.
    apply pymax_proper; [reflexivity |].
    apply pymin_proper; [reflexivity | simpl; lra]. }
  split; [exact Hb |]. split; lra.
Qed.

End TensionClaims.

Section WAxisStage.
Import ProgressivePlanner StageFacts CausalFlowAnalyzer.

Lemma zip_imap_Forall2 {A B C} (R : A -> C -> Prop) (f : A -> B -> C)
    (g : nat -> A -> B) (l : list A) :
  (forall i x, R x (f x (g i x))) ->
  Forall2 R l (zip_with f l (imap g l)).
Proof.
  revert g. induction l as [| x l IH]; intros g H; simpl; constructor.
  - apply H.
  - apply IH. intros i y. apply H.
Qed.

Lemma map_Forall2 {A B} (R : A -> B -> Prop) (f : A -> B) (l : list A) :
  (forall x, R x (f x)) -> Forall2 R l (map f l).
Proof. intros H. induction l; simpl; constructor; auto. Qed.

(** Every batch answers task by task, with the task's tensions. *)
Lemma batch_tensions a tasks :
  Forall2 (fun task r => w_tensions r = _compute_tensions task)
    tasks (batch_compute_causal_flow a tasks).
Proof.
  unfold batch_compute_causal_flow.
  destruct tasks as [| t0 tasks0] eqn:Et; [constructor |].
  rewrite <- Et. clear Et.
  destruct (llm_client a) as [reason |];
    [| destruct (spatial_intelligence a) as [reason |]].
  - apply zip_imap_Forall2. reflexivity.
  - apply map_Forall2. reflexivity.
  - apply map_Forall2. reflexivity.
Qed.

(** Without any reasoner the batch answers the rule-only score. *)
Lemma batch_rule_scores a tasks :
  llm_client a = None -> spatial_intelligence a = None ->
  Forall2 (fun task r => w_c_causal r = _rule_causal_score_simple task)
    tasks (batch_compute_causal_flow a tasks).
Proof.
  intros Hl Hs. unfold batch_compute_causal_flow. rewrite Hl, Hs.
  destruct tasks as [| t0 tasks0] eqn:Et; [constructor |].
  rewrite <- Et. apply map_Forall2. reflexivity.
Qed.

Lemma annotate_Forall session (R : Task -> WResult -> Prop)
    (P : CandidateOption -> Prop) options results :
  (forall o r, R (w_task session o) r -> P (apply_w_result session o r)) ->
  Forall2 R (map (w_task session) options) results ->
  Forall P (annotate session options results).
Proof.
  intros HP. revert results.
  induction options as [| o options IH]; intros results H; simpl in *.
  - constructor.
  - inversion H as [| ? r ? rs Hr Hrs]; subst.
    constructor; [now apply HP | now apply IH].
Qed.

Lemma w_axis_stage_annotated planner session options w :
  w_axis planner = Some w ->
  Forall (w_annotated session) (w_axis_stage planner session options).
Proof.
  intros Hw. unfold w_axis_stage. rewrite Hw.
  destruct options as [| o os] eqn:Eo; [constructor |].
  rewrite <- Eo.
  eapply annotate_Forall; [| apply batch_tensions].
  intros o' r Hr. eexists. repeat split. exact Hr.
Qed.

Lemma w_axis_stage_rule_scored planner session options w :
  w_axis planner = Some w ->
  llm_client (SemanticCausalFlow.causal_analyzer w) = None ->
  spatial_intelligence (SemanticCausalFlow.causal_analyzer w) = None ->
  Forall (rule_scored session) (w_axis_stage planner session options).
Proof.
  intros Hw Hl Hs. unfold w_axis_stage. rewrite Hw.
  destruct options as [| o os] eqn:Eo; [constructor |].
  rewrite <- Eo.
  eapply annotate_Forall; [| now apply batch_rule_scores].
  intros o' r Hr. unfold rule_scored. simpl. now rewrite Hr.
Qed.

(** Properties of the W-axis fields survive the later stages. *)
Lemma later_stages_keep planner session k options tape
    (P : CandidateOption -> Prop) :
  (forall o level, P o -> P (set_risk_level o level)) ->
  (forall o text, P o -> P (set_explanation o text)) ->
  Forall P (w_axis_stage planner session options) ->
  Forall P (fst (rank_options planner session k options tape)).
Proof.
  intros Hrisk Hexp H. unfold rank_options.
  set (top := take _ _).
  assert (Htop : Forall P top).
  { apply Forall_take. unfold risk_stage.
    assert (Hs : Forall P (sort_by_score
                             (w_axis_stage planner session options))).
    { eapply Permutation_Forall;
        [symmetry; apply sort_by_score_perm | exact H]. }
    destruct (spatial_core planner); [| exact Hs].
    apply List.Forall_map. eapply Forall_impl; [exact Hs |].
    intros x Hx. now apply Hrisk. }
  unfold explain_stage. destruct (explainer planner) as [layer |];
    [| exact Htop].
  generalize 1%nat as rank. generalize top at 1 as all.
  revert tape. induction Htop as [| o todo Ho _ IH]; intros tape all rank;
    simpl; [constructor |].
  destruct (ExplanationLayer.explain_choice _ _ _ _ _ _) as [text tape1].
  specialize (IH tape1 all (S rank)).
  destruct (explain_loop _ _ _ _ _ _) as [rest tape2]. simpl in *.
  constructor; [now apply Hexp | exact IH].
Qed.

End WAxisStage.

Section WAxisPipeline.
Import ProgressivePlanner StageFacts CausalFlowAnalyzer.

Variable _haversine_distance : Location -> Location -> Q.
Variable exp : Q -> Q.
Variable log10 : Z -> Q.
Variable is_open : Location -> Q -> bool.
Variable planner : ProgressivePlanner.t.

Local Abbreviation get_next_options :=
  (get_next_options _haversine_distance exp log10 is_open planner).

(** With a W-axis configured, every returned option carries the rule
    tensions of its own task. *)
Lemma next_options_annotated session k tape w :
  w_axis planner = Some w ->
  Forall (w_annotated session) (fst (get_next_options session k tape)).
Proof.
  intros Hw.
  rewrite (get_next_options_unfold _haversine_distance exp log10 is_open).
  apply later_stages_keep.
  - intros o level H. exact H.
  - intros o text H. exact H.
  - now apply w_axis_stage_annotated with w.
Qed.

(** With a W-axis but no reasoner, every returned option carries the
    rule-only causal score, which lies in [0.1, 0.95]. *)
Lemma next_options_rule_scored session k tape w :
  w_axis planner = Some w ->
  llm_client (SemanticCausalFlow.causal_analyzer w) = None ->
  spatial_intelligence (SemanticCausalFlow.causal_analyzer w) = None ->
  Forall (fun o => rule_scored session o /\
                   exists c, c_causal o = Some c /\ 0.1 <= c <= 0.95)
    (fst (get_next_options session k tape)).
Proof.
  intros Hw Hl Hs.
  rewrite (get_next_options_unfold _haversine_distance exp log10 is_open).
  eapply Forall_impl.
  - apply later_stages_keep with (P := rule_scored session).
    + intros o level H. exact H.
    + intros o text H. exact H.
    + now apply w_axis_stage_rule_scored with w.
  - intros o Ho. split; [exact Ho |].
    eexists. split; [exact Ho | apply rule_score_bounds].
Qed.

End WAxisPipeline.

Section TensionRuns.
Import CausalFlowAnalyzer Scenario.

(** C10, witness: the task for Furong Lake after the two visits on
    Gulangyu, with no reasoner configured. *)
Lemma rule_fallback_c_causal_witness :
  exists r,
    batch_compute_causal_flow
      (SemanticCausalFlow.causal_analyzer rule_w_axis)
      [ProgressivePlanner.w_task session2
         (plain_option furong_lake (current_state session2))] !! 0%nat
    = Some r /\
    0.1 <= w_c_causal r <= 0.95.
Proof.
  destruct (rule_fallback_c_causal
              (SemanticCausalFlow.causal_analyzer rule_w_axis)
              [ProgressivePlanner.w_task session2
                 (plain_option furong_lake (current_state session2))]
              0%nat
              (ProgressivePlanner.w_task session2
                 (plain_option furong_lake (current_state session2))))
    as (r & Hr & _ & _ & Hb & _).
  - reflexivity.
  - left. split; reflexivity.
  - exists r. split; [exact Hr | exact Hb].
Defined.

(** C6 at the failing input.  After two selections in Gusu the session
    counts two visits for the region the coordinator assigns to Lion
    Grove, yet the analyzer labels Lion Grove with the catch-all region
    and reports the novelty of a first visit; the annotated option
    carries both the visit count 2 and the novelty 0.8. *)
Lemma gusu_novelty_ignores_visits :
  let option := plain_option lion_grove (current_state suzhou2) in
  let task := ProgressivePlanner.w_task suzhou2 option in
  ProgressivePlanner._get_region lion_grove = "姑苏" /\
  region_visit_counts suzhou2 !! "姑苏" = Some 2%nat /\
  CausalFlowAnalyzer._get_region lion_grove = "其他" /\
  novelty (_compute_tensions task) == 0.8 /\
  ~ novelty (_compute_tensions task) == -0.6 /\
  match ProgressivePlanner.w_axis_stage planner suzhou2 [option] with
  | [annotated] =>
      visit_count annotated = Some 2%nat /\
      (novelty <$> (d_tensions <$> w_axis_details annotated)) = Some 0.8
  | _ => False
  end.
Proof.
  cbv zeta. split; [vm_compute; reflexivity |].
  split; [vm_compute; reflexivity |].
  split; [vm_compute; reflexivity |].
  split; [vm_compute; reflexivity |].
  split; [intros H; vm_compute in H; discriminate H |].
  vm_compute. split; reflexivity.
Qed.

End TensionRuns.

(** ** Base score *)

Section ScoreClaims.

Variable exp : Q -> Q.

(** C4, as amended.  With the default weights (which sum to 1) the base
    score is the weighted sum 0.25 match + 0.20 trust + 0.20 quality
    + 0.15 efficiency + 0.10 novelty + 0.10 crowd clamped to [0, 1],
    where quality is 0.6 (weighted_rating / 5) + 0.4 positive_rate of the
    verification record, efficiency is [exp] of minus half the least
    edge time, and novelty is 1 for an unvisited place and 0 for a
    visited one. *)
Theorem base_score_weighted_sum (n : Location) (es : list Edge)
    (v : NodeVerification) (profile : UserProfile) (st : State) :
  let m := compute_match_score n profile in
  let quality := 0.6 * (weighted_rating v / 5) + 0.4 * positive_rate v in
  let efficiency := _compute_efficiency_score exp es st in
  let nov := _compute_novelty_score n st in
  let total := compute_score exp _default_config n es v profile st in
  total == pymax 0 (pymin 1 (0.25 * m + 0.20 * overall_trust_score v
                             + 0.20 * quality + 0.15 * efficiency
                             + 0.10 * nov
                             + 0.10 * (1 - predicted_crowd_level v))) /\
  0 <= total <= 1 /\
  w_match _default_config + w_trust _default_config
  + w_quality _default_config + w_efficiency _default_config
  + w_novelty _default_config + w_crowd _default_config == 1 /\
  _compute_quality_score v == quality /\
  (es <> [] ->
   exists best,
     In best es /\ (forall e, In e es -> time best <= time e) /\
     efficiency = exp (- time best / 2.0)) /\
  (id n ∉ visited_history st -> nov == 1) /\
  (id n ∈ visited_history st -> nov == 0).
Proof.
  cbv zeta.
  assert (Hq : _compute_quality_score v
               == 0.6 * (weighted_rating v / 5) + 0.4 * positive_rate v).
  { unfold _compute_quality_score. field. }
  split.
  { unfold compute_score, weighted_sum, _default_config.
    cbn [w_match w_trust w_quality w_efficiency w_novelty w_crowd].
    apply clamp_compat; [lra | lra |].
    rewrite Hq. lra. }
  split.
  { unfold compute_score.
    match goal with
    | |- _ <= pymax ?a (pymin ?b ?x) <= _ =>
        pose proof (clamp_bounds a b x)
    end. lra. }
  split; [reflexivity |].
  split; [exact Hq |].
  split.
  { intros Hne. destruct (min_by_time_some _ Hne) as [best Hb].
    destruct (min_by_time_spec _ _ Hb) as [Hin Hmin].
    exists best. repeat split; auto.
    unfold _compute_efficiency_score. now rewrite Hb. }
  unfold _compute_novelty_score.
  split; intros H; case_bool_decide; try tauto; reflexivity.
Qed.

End ScoreClaims.

Section ScoreRuns.
Import Scenario.

(** C4, witness: the garden option seen from the station. *)
Lemma base_score_weighted_sum_witness :
  edges garden_option <> [] /\
  (id shuzhuang ∉ visited_history (current_state session0)) /\
  _compute_novelty_score shuzhuang (current_state session0) == 1 /\
  exists best,
    In best (edges garden_option) /\
    (forall e, In e (edges garden_option) -> time best <= time e) /\
    _compute_efficiency_score exp_taylor (edges garden_option)
      (current_state session0)
    = exp_taylor (- time best / 2.0).
Proof.
  assert (H1 : edges garden_option <> []) by (vm_compute; discriminate).
  assert (H2 : id shuzhuang ∉ visited_history (current_state session0))
    by (apply (proj1 (bool_decide_eq_false _)); vm_compute; reflexivity).
  pose proof (base_score_weighted_sum exp_taylor shuzhuang
                (edges garden_option) (rated 4.5) _default_user_profile
                (current_state session0)) as H.
  cbv zeta in H. destruct H as (_ & _ & _ & _ & He & Hn & _).
  split; [exact H1 |]. split; [exact H2 |].
  split; [exact (Hn H2) | exact (He H1)].
Defined.

(** C4, counterexample.  For Sunlight Rock at the start of the trip the
    quality filter computes an overall quality of 0.70, while the
    quality term of the base score is 0.96; the base score is the
    weighted sum with 0.96 and differs from the sum with 0.70. *)
Lemma quality_term_not_overall_counterexample :
  match next_options session0 [] with
  | o :: _ =>
      node o = sunlight_rock /\
      match quality_score o with
      | Some q =>
          let term (x : Q) :=
            weighted_sum _default_config
              (compute_match_score (node o) (user_profile session0))
              (overall_trust_score (verification o)) x
              (_compute_efficiency_score exp_taylor (edges o)
                 (current_state session0))
              (_compute_novelty_score (node o) (current_state session0))
              (1 - predicted_crowd_level (verification o)) in
          overall q == 0.70 /\
          _compute_quality_score (verification o) == 0.96 /\
          score o == term 0.96 /\
          ~ score o == pymax 0 (pymin 1 (term (overall q)))
      | None => False
      end
  | [] => False
  end.
Proof.
  vm_compute. repeat split; try reflexivity. intros H. discriminate H.
Qed.

End ScoreRuns.

(** ** Explanations and the random generator *)

Section ExplanationFacts.
Import ProgressivePlanner StageFacts ExplanationLayer.


Lemma choice_in d (l : list string) : l <> [] -> In (choice d l) l.
Proof.
  intros Hl. unfold choice. apply nth_In.
  apply Nat.mod_upper_bound. destruct l; [congruence | discriminate].
Qed.

Lemma draw_choice_in l tape : l <> [] -> In (fst (draw_choice l tape)) l.
Proof. intros Hl. destruct tape; simpl; now apply choice_in. Qed.

(** Without a draw the text does not depend on the generator, which is
    handed on untouched. *)
Lemma explain_choice_no_draw layer o context rank alternatives tape :
  draws o context rank = false ->
  explain_choice layer o context rank alternatives tape
  = (fst (explain_choice layer o context rank alternatives []), tape).
Proof.
  unfold draws, explain_choice, _generate_second_choice_appeal.
  destruct (_ && (rank =? 1)%nat); [discriminate |].
  destruct (rank =? 2)%nat.
  - destruct (_ && Qltb 0.5 _); [reflexivity |].
    destruct (Qltb _ 0); [reflexivity | discriminate].
  - intros _. destruct (llm_client layer) as [generate |]; [| reflexivity].
    destruct (generate o context rank); reflexivity.
Qed.

(** With a draw the text is one of the templates for the input. *)
Lemma explain_choice_draw layer o context rank alternatives tape :
  draws o context rank = true ->
  In (fst (explain_choice layer o context rank alternatives tape))
    (counter_templates o context alternatives ++ appeal_templates o).
Proof.
  unfold draws, explain_choice, _generate_second_choice_appeal,
    _generate_counter_suggestion.
  destruct (_ && (rank =? 1)%nat).
  - intros _. apply in_or_app. left. now apply draw_choice_in.
  - destruct (rank =? 2)%nat; [| discriminate].
    destruct (_ && Qltb 0.5 _); [discriminate |].
    destruct (Qltb _ 0); [discriminate |].
    intros _. apply in_or_app. right. now apply draw_choice_in.
Qed.

Lemma explain_loop_lookup layer session top rank todo tape1 tape2 i o1 o2 :
  fst (explain_loop layer session top rank todo tape1) !! i = Some o1 ->
  fst (explain_loop layer session top rank todo tape2) !! i = Some o2 ->
  draws o1 (explain_context session o1) (rank + i) = false ->
  explanation o1 = explanation o2.
Proof.
  revert rank tape1 tape2 i.
  induction todo as [| o todo IH]; intros rank tape1 tape2 i;
    [discriminate |].
  simpl.
  destruct (explain_choice layer o (explain_context session o) rank
              (alternatives_for top rank) tape1) as [text1 t1] eqn:E1.
  destruct (explain_choice layer o (explain_context session o) rank
              (alternatives_for top rank) tape2) as [text2 t2] eqn:E2.
  specialize (IH (S rank) t1 t2).
  destruct (explain_loop layer session top (S rank) todo t1)
    as [rest1 u1].
  destruct (explain_loop layer session top (S rank) todo t2)
    as [rest2 u2].
  simpl in *. destruct i as [| i]; simpl.
  - intros [= <-] [= <-]. rewrite Nat.add_0_r.
    change (draws (set_explanation o (Some text1))
              (explain_context session (set_explanation o (Some text1)))
              rank)
      with (draws o (explain_context session o) rank).
    intros Hd. simpl.
    rewrite (explain_choice_no_draw _ _ _ _ _ tape1 Hd) in E1.
    rewrite (explain_choice_no_draw _ _ _ _ _ tape2 Hd) in E2.
    congruence.
  - intros H1 H2 Hd. apply (IH i); auto.
    replace (S (rank + i))%nat with (rank + S i)%nat by lia. exact Hd.
Qed.

End ExplanationFacts.

Section DeterminismClaims.
Import ProgressivePlanner StageFacts ExplanationLayer.

Variable _haversine_distance : Location -> Location -> Q.
Variable exp : Q -> Q.
Variable log10 : Z -> Q.
Variable is_open : Location -> Q -> bool.
Variable planner : ProgressivePlanner.t.

Local Abbreviation get_next_options :=
  (get_next_options _haversine_distance exp log10 is_open planner).

(** C2, as amended.  Two runs of [get_next_options] on the same session
    with the same collaborators in which the verification engine gives
    the same answers, whatever the random generator draws for the
    explanations, return the same options in the same order with all
    fields equal except possibly the explanation; the explanations
    agree at every rank that reaches no [random.choice] (every rank
    from 3 on, rank 1 unless its region was visited at least twice,
    rank 2 in its two fixed branches).  The rule template
    [_rule_explain] takes no generator; where [explain_choice] does
    draw, its text is one of the templates determined by its input. *)
Theorem next_options_equal_up_to_draws session k tape1 tape2 :
  engine_answers _haversine_distance planner session
    (_compute_candidates _haversine_distance is_open planner session) tape1
  = engine_answers _haversine_distance planner session
      (_compute_candidates _haversine_distance is_open planner session)
      tape2 ->
  let run1 := fst (get_next_options session k tape1) in
  let run2 := fst (get_next_options session k tape2) in
  map strip run1 = map strip run2 /\
  (forall i o1 o2,
     run1 !! i = Some o1 -> run2 !! i = Some o2 ->
     draws o1 (explain_context session o1) (S i) = false ->
     explanation o1 = explanation o2) /\
  (forall layer o context rank alternatives tape,
     draws o context rank = true ->
     In (fst (explain_choice layer o context rank alternatives tape))
       (counter_templates o context alternatives ++ appeal_templates o)) /\
  (forall layer o context rank alternatives tape,
     draws o context rank = false -> llm_client layer = None ->
     explain_choice layer o context rank alternatives tape
     = (if (rank =? 2)%nat
        then fst (_generate_second_choice_appeal o context [])
        else _rule_explain o context, tape)).
Proof.
  intros Hanswers. cbv zeta.
  rewrite !(get_next_options_unfold _haversine_distance exp log10 is_open).
  assert (Hb : fst (build_options _haversine_distance exp log10 is_open
                      planner session tape1)
               = fst (build_options _haversine_distance exp log10 is_open
                        planner session tape2))
    by (now apply build_loop_by_answers).
  rewrite Hb. unfold rank_options.
  split; [now rewrite !explain_stage_strip |].
  split.
  { intros i o1 o2. unfold explain_stage.
    destruct (explainer planner) as [layer |].
    - intros H1 H2 Hd.
      eapply (explain_loop_lookup layer session _ 1 _ _ _ i); eauto.
    - simpl. congruence. }
  split; [intros; now apply explain_choice_draw |].
  intros layer o context rank alternatives tape Hd Hl.
  rewrite (explain_choice_no_draw _ _ _ _ _ _ Hd).
  f_equal. unfold draws in Hd. unfold explain_choice. rewrite Hl.
  destruct (_ && (rank =? 1)%nat); [discriminate |].
  destruct (rank =? 2)%nat; reflexivity.
Qed.

End DeterminismClaims.

Section DeterminismRuns.
Import ProgressivePlanner StageFacts Scenario.

(** C2, witness: the engine of the run answers the same under the two
    generators, and after the two visits on Gulangyu the appeal for
    Furong Lake at rank 2 takes a fixed branch, so it is the same under
    both. *)
Lemma next_options_equal_up_to_draws_witness :
  engine_answers distance_table planner session2
    (_compute_candidates distance_table always_open planner session2)
    [0%nat]
  = engine_answers distance_table planner session2
      (_compute_candidates distance_table always_open planner session2)
      [1%nat] /\
  map strip (next_options session2 [0%nat])
  = map strip (next_options session2 [1%nat]) /\
  exists o1 o2,
    next_options session2 [0%nat] !! 1%nat = Some o1 /\
    next_options session2 [1%nat] !! 1%nat = Some o2 /\
    draws o1 (explain_context session2 o1) 2 = false /\
    explanation o1 = explanation o2.
Proof.
  assert (Ha : engine_answers distance_table planner session2
                 (_compute_candidates distance_table always_open planner
                    session2) [0%nat]
               = engine_answers distance_table planner session2
                   (_compute_candidates distance_table always_open planner
                      session2) [1%nat])
    by (vm_compute; reflexivity).
  split; [exact Ha |].
  pose proof (next_options_equal_up_to_draws distance_table exp_taylor
                log10_digits always_open planner session2 None [0%nat]
                [1%nat] Ha) as (Hstrip & Hexp & _).
  split; [exact Hstrip |].
  destruct (next_options session2 [0%nat] !! 1%nat) as [o1 |] eqn:E1;
    [| vm_compute in E1; discriminate E1].
  destruct (next_options session2 [1%nat] !! 1%nat) as [o2 |] eqn:E2;
    [| vm_compute in E2; discriminate E2].
  assert (Hd : draws o1 (explain_context session2 o1) 2 = false).
  { vm_compute in E1. injection E1 as <-. vm_compute. reflexivity. }
  exists o1, o2. repeat split; auto.
  exact (Hexp 1%nat o1 o2 E1 E2 Hd).
Defined.

(** With an engine that draws its ratings, two runs on the same session
    differ beyond the explanations: the sight whose rating was drawn
    high comes first. *)
Example ratings_depend_on_draws :
  map (fun o => id (node o)) (drawn_options [1; 0; 0; 0]%nat)
  = ["xm_001"; "xm_002"; "xm_003"; "xm_004"] /\
  map (fun o => id (node o)) (drawn_options [0; 1; 0; 0]%nat)
  = ["xm_002"; "xm_001"; "xm_003"; "xm_004"] /\
  map strip (drawn_options [1; 0; 0; 0]%nat)
  <> map strip (drawn_options [0; 1; 0; 0]%nat).
Proof.
  split; [vm_compute; reflexivity |].
  split; [vm_compute; reflexivity |].
  intros H. apply (f_equal (map (fun o => id (node o)))) in H.
  vm_compute in H. discriminate H.
Qed.

(** C2, counterexample.  Same session, same collaborators, no language
    model: when the generator draws 0 the first option carries one
    counter-suggestion, when it draws 1 another, so the two returned
    lists differ. *)
Lemma explanation_depends_on_draw_counterexample :
  (explanation <$> next_options session2 [0%nat] !! 0%nat)
  = Some (Some "鼓浪屿又去？或者厦大那边还没怎么去过，要不换个地方透透气？") /\
  (explanation <$> next_options session2 [1%nat] !! 0%nat)
  = Some (Some ("虽然鼓浪屿还不错，但去了2次了，"
                +:+ "或者厦大那边还没怎么去过，换个区域会不会更新鲜？")) /\
  next_options session2 [0%nat] <> next_options session2 [1%nat].
Proof.
  split; [vm_compute; reflexivity |].
  split; [vm_compute; reflexivity |].
  intros H.
  apply (f_equal (fun l => explanation <$> l !! 0%nat)) in H.
  vm_compute in H. discriminate H.
Qed.

End DeterminismRuns.
